(** * Data-processing-chain protocol: supervisor and default callbacks

    A shallow embedding of

    - [lib/src/types/types.ts] (the data model),
    - the [NodeSupervisor] class (signal dispatch, chain start, node-creation
      broadcast),
    - [lib/src/extra/DefaultReportingCallbacks.ts] (monitoring resolver,
      broadcast-reporting, broadcast-setup and remote-service callbacks),

    followed by the properties of the specification that concern them.

    Conventions.  An [async] function is run to completion in program order;
    its result is a [Completion]: [Normal v] for a fulfilled promise,
    [Throw e] for a rejected one.  Everything the code does to the outside
    world (a [Logger] call, an HTTP [post], a call of the injected broadcast
    function) is appended to a trace of [Event]s, in order.  Mutable objects
    live in an explicit state that is threaded through the calls. *)

From Stdlib Require Import ZArith Lia String Ascii List.
From Stdlib Require Import DecimalString DecimalPos DecimalZ.
From stdpp Require Import gmap strings list fin_maps.

Local Open Scope Z_scope.
Local Open Scope string_scope.
Local Open Scope list_scope.
Local Open Scope stdpp_scope.

(* ===================================================================== *)
(** ** JavaScript values, errors and the effect monad *)
(* ===================================================================== *)

(** [PipelineData = unknown] in types.ts: an arbitrary value.  The values
    that travel here are serialised with [JSON.stringify], so JSON values
    are what matters of them. *)
Local Unset Elimination Schemes.
Inductive JsValue : Type :=
| JUndefined
| JNull
| JBool (b : bool)
| JNum (n : Z)
| JStr (s : string)
| JArr (items : list JsValue)
| JObj (fields : list (string * JsValue)).
Local Set Elimination Schemes.

Definition PipelineData := JsValue.

(** [PipelineMeta] is imported from types.ts by the callbacks; on the wire
    it is a JSON object ([meta: {...}]). *)
Definition PipelineMeta := JsValue.

(** Template-literal conversion of an integral [number] ([Date.now()], a
    delay): plain decimal digits, with a leading minus sign when negative.
    (JavaScript switches to exponent notation only from 1e21 on, far above
    the range of a [Date].) *)
Definition Number_toString (n : Z) : string :=
  NilZero.string_of_int (Z.to_int n).

(** [s.slice(0, n)] *)
Definition slice0 (n : nat) (s : string) : string := substring 0 n s.

Module JS.

(** An [Error] object: [name] is "Error", "TypeError", ... *)
Record Error := mkError { name : string; message : string }.

Definition Error_new (msg : string) : Error := mkError "Error" msg.
Definition TypeError_new (msg : string) : Error := mkError "TypeError" msg.

(** [Error.prototype.toString], what [`${error}`] yields. *)
Definition Error_toString (e : Error) : string :=
  if String.eqb (name e) "" then message e
  else if String.eqb (message e) "" then name e
  else name e +:+ ": " +:+ message e.

Inductive Completion (A : Type) : Type :=
| Normal (a : A)
| Throw (e : Error).
Arguments Normal {A} a.
Arguments Throw {A} e.

(** JavaScript truthiness of a [string | undefined]. *)
Definition truthy (v : option string) : bool :=
  match v with
  | None => false
  | Some s => negb (String.eqb s "")
  end.

End JS.
Import JS.

(* ===================================================================== *)
(** ** types.ts *)
(* ===================================================================== *)

Module NodeStatus.
Inductive Type_ : Type := PENDING | IN_PROGRESS | COMPLETED | FAILED | PAUSED.
End NodeStatus.

(** The signals are string constants; [handleRequest] switches on the
    string it receives, which at run time need not be one of the six. *)
Module NodeSignal.
Definition NODE_CREATE : string := "node_create".
Definition NODE_DELETE : string := "node_delete".
Definition NODE_PAUSE : string := "node_pause".
Definition NODE_DELAY : string := "node_delay".
Definition NODE_RUN : string := "node_run".
Definition NODE_SEND_DATA : string := "node_send_data".
Definition all : list string :=
  [NODE_CREATE; NODE_DELETE; NODE_PAUSE; NODE_DELAY; NODE_RUN; NODE_SEND_DATA].
End NodeSignal.

(** [CallbackPayload], with the fields the callbacks read
    ([chainId], [targetId], [meta], [data]). *)
Record CallbackPayload := mkCallbackPayload {
  cp_chainId : option string;
  cp_targetId : string;
  cp_meta : option PipelineMeta;
  cp_data : PipelineData;
}.

(** [SupervisorPayload = { signal; [key: string]: any }]: the fields the
    handlers read. [params] may be absent ([createNode] has a default). *)
Record SupervisorPayload := mkSupervisorPayload {
  signal : string;
  params : option (list string);
  id : string;
  delay : Z;
  data : PipelineData;
}.

(** [BrodcastMessage] *)
Record BrodcastStage := mkBrodcastStage { bs_services : list string }.
Record BrodcastChain := mkBrodcastChain {
  chain_id : string;
  chain_config : list BrodcastStage;
}.
Record BrodcastMessage := mkBrodcastMessage {
  bm_signal : string;
  bm_chain : BrodcastChain;
}.

(* ===================================================================== *)
(** ** Traces and the effect monad *)
(* ===================================================================== *)

Inductive LogLevel : Type := Info | Warn | Err.

(** A log line: literal text, or text followed by the value handed to
    [JSON.stringify] (whose layout is the platform's business). *)
Inductive LogMsg : Type :=
| Text (s : string)
| TextJson (s : string) (v : JsValue).

Inductive Event : Type :=
| EvLog (level : LogLevel) (msg : LogMsg)
| EvBroadcast (m : BrodcastMessage)   (* call of the injected broadcast function *)
| EvPost (url : string) (body : JsValue). (* [post(url, JSON.stringify(body))] *)

Record Out (St A : Type) : Type := mkOut {
  events : list Event;
  final : St;
  completion : Completion A;
}.
Arguments mkOut {St A} _ _ _.
Arguments events {St A} _.
Arguments final {St A} _.
Arguments completion {St A} _.

Definition Eff (St A : Type) : Type := St -> Out St A.

Section Monad.
Context {St : Type}.

Definition ret {A} (a : A) : Eff St A := fun s => mkOut [] s (Normal a).

Definition throw {A} (e : Error) : Eff St A := fun s => mkOut [] s (Throw e).

Definition bind {A B} (m : Eff St A) (k : A -> Eff St B) : Eff St B :=
  fun s =>
    let o := m s in
    match completion o with
    | Normal a =>
        let o' := k a (final o) in
        mkOut (events o ++ events o') (final o') (completion o')
    | Throw e => mkOut (events o) (final o) (Throw e)
    end.

(** [try { body } catch (e) { handler e }] *)
Definition try_catch {A} (body : Eff St A) (handler : Error -> Eff St A)
  : Eff St A :=
  fun s =>
    let o := body s in
    match completion o with
    | Normal a => o
    | Throw e =>
        let o' := handler e (final o) in
        mkOut (events o ++ events o') (final o') (completion o')
    end.

Definition emit (ev : Event) : Eff St unit := fun s => mkOut [ev] s (Normal tt).
Definition get : Eff St St := fun s => mkOut [] s (Normal s).
Definition modify (f : St -> St) : Eff St unit :=
  fun s => mkOut [] (f s) (Normal tt).

(** Settle a promise whose outcome is already known. *)
Definition settle {A} (c : Completion A) : Eff St A := fun s => mkOut [] s c.

(** [for (const x of l) { body x }] *)
Fixpoint for_of {A} (l : list A) (body : A -> Eff St unit) : Eff St unit :=
  match l with
  | [] => ret tt
  | x :: l' => bind (body x) (fun _ => for_of l' body)
  end.

(** The Logger (libs/Logger): each call is one trace entry. *)
Definition Logger_info (m : LogMsg) : Eff St unit := emit (EvLog Info m).
Definition Logger_warn (m : LogMsg) : Eff St unit := emit (EvLog Warn m).
Definition Logger_error (m : LogMsg) : Eff St unit := emit (EvLog Err m).
End Monad.

(** stdpp's monad notations: [x ← m; k] and [m ;; k]. *)
#[global] Instance Eff_ret {St} : MRet (Eff St) := fun A => @ret St A.
#[global] Instance Eff_bind {St} : MBind (Eff St) := fun A B k m => @bind St A B m k.

(** *** What a [catch] clause may receive from user code

    JavaScript lets code throw, and a promise reject with, any value.  The
    platform and the transport raise [Error] objects, and that is what
    [Throw] carries.  [sendData] of a Node hands over what user-supplied
    processors produced, and rejects with whatever was thrown there: an
    [Error] object or any other value; the [catch] of [sendNodeData] reads
    that value, so it is kept as it is. *)
Inductive Thrown : Type :=
| ThrownError (e : Error)
| ThrownValue (v : JsValue).

(** [obj.key] on a plain object: [undefined] when there is no such
    property; of two entries with the same key the later one counts, as in
    an object literal. *)
Definition property (key : string) (fields : list (string * JsValue)) : JsValue :=
  fold_left (fun found kv => if String.eqb (fst kv) key then snd kv else found)
            fields JUndefined.

(** Conversion of a value in a template literal, [`${v}`]. *)
Fixpoint String_of (v : JsValue) : string :=
  match v with
  | JUndefined => "undefined"
  | JNull => "null"
  | JBool true => "true"
  | JBool false => "false"
  | JNum n => Number_toString n
  | JStr s => s
  | JArr items =>
      (fix join (l : list JsValue) : string :=
         match l with
         | [] => ""
         | x :: l' =>
             let head := match x with
                         | JUndefined | JNull => ""
                         | _ => String_of x
                         end in
             match l' with
             | [] => head
             | _ :: _ => head +:+ "," +:+ join l'
             end
         end) items
  | JObj _ => "[object Object]"
  end.

(** [(err as Error).message] as a template literal renders it: the cast
    checks nothing, and reading a property of [undefined] or [null] throws
    a TypeError. *)
Definition read_message (err : Thrown) : Completion string :=
  match err with
  | ThrownError e => Normal (message e)
  | ThrownValue JUndefined =>
      Throw (TypeError_new "Cannot read properties of undefined (reading 'message')")
  | ThrownValue JNull =>
      Throw (TypeError_new "Cannot read properties of null (reading 'message')")
  | ThrownValue (JObj fields) => Normal (String_of (property "message" fields))
  | ThrownValue _ => Normal "undefined"
  end.


(** How a call into user code ends: the promise is fulfilled, or rejected
    with any value. *)
Inductive Settlement (A : Type) : Type :=
| Fulfilled (a : A)
| Rejected (err : Thrown).
Arguments Fulfilled {A} a.
Arguments Rejected {A} err.

Record Run (St A : Type) : Type := mkRun {
  trace : list Event;
  after : St;
  settlement : Settlement A;
}.
Arguments mkRun {St A} _ _ _.
Arguments trace {St A} _.
Arguments after {St A} _.
Arguments settlement {St A} _.

Definition UserEff (St A : Type) : Type := St -> Run St A.

(** A computation that raises [Error] objects only, seen as user code. *)
Definition of_Eff {St A} (m : Eff St A) : UserEff St A :=
  fun s =>
    let o := m s in
    mkRun (events o) (final o)
          (match completion o with
           | Normal a => Fulfilled a
           | Throw e => Rejected (ThrownError e)
           end).

(** [try { await body } catch (err) { handler err }] around user code. *)
Definition try_catch_any {St A} (body : UserEff St A)
  (handler : Thrown -> Eff St A) : Eff St A :=
  fun s =>
    let r := body s in
    match settlement r with
    | Fulfilled a => mkOut (trace r) (after r) (Normal a)
    | Rejected err =>
        let o' := handler err (after r) in
        mkOut (trace r ++ events o') (final o') (completion o')
    end.

(** The HTTP calls of a trace, in order. *)
Definition posts (t : list Event) : list (string * JsValue) :=
  omap (fun ev => match ev with EvPost u b => Some (u, b) | _ => None end) t.

Definition broadcasts (t : list Event) : list BrodcastMessage :=
  omap (fun ev => match ev with EvBroadcast m => Some m | _ => None end) t.

Definition logged (lvl : LogLevel) (t : list Event) : list LogMsg :=
  omap (fun ev => match ev with
                  | EvLog l m => match lvl, l with
                                 | Info, Info | Warn, Warn | Err, Err => Some m
                                 | _, _ => None
                                 end
                  | _ => None
                  end) t.

(* ===================================================================== *)
(** ** Node and NodeMonitoring *)
(* ===================================================================== *)

(** A Processor is an opaque transformer [run(payload) -> payload] that may
    raise. *)
Definition Processor := PipelineData -> Completion PipelineData.

Module Node.

(** Modelled from the spec: the Node class (core/Node.ts), which the
    supervisor imports and whose source is not part of this development.
    The record has the attributes of section 3 of the specification, and
    [chainId] and [meta], which section 4.1 puts in the payload of
    send-data. *)
Record t := mk {
  id : string;
  pipeline : list Processor;
  dependencies : list string;
  status : NodeStatus.Type_;
  delay : Z;
  output : option PipelineData;
  nextTarget : option string;
  chainId : option string;
  meta : option PipelineMeta;
}.

(** Modelled from the spec: [new Node(dependencies)], given the fresh
    identifier it is assigned: "created by Supervisor in state PENDING",
    "initially empty". *)
Definition create (i : string) (deps : list string) : t :=
  mk i [] deps NodeStatus.PENDING 0 None None None None.

Definition getId (n : t) : string := id n.

Definition with_status (s : NodeStatus.Type_) (n : t) : t :=
  mk (id n) (pipeline n) (dependencies n) s (delay n) (output n)
     (nextTarget n) (chainId n) (meta n).

Definition with_delay (d : Z) (n : t) : t :=
  mk (id n) (pipeline n) (dependencies n) (status n) d (output n)
     (nextTarget n) (chainId n) (meta n).

Definition with_output (o : option PipelineData) (n : t) : t :=
  mk (id n) (pipeline n) (dependencies n) (status n) (delay n) o
     (nextTarget n) (chainId n) (meta n).

(** Modelled from the spec: the legal transitions of section 3,
    "PENDING -> IN_PROGRESS -> COMPLETED|FAILED; may be placed in PAUSED
    from any non-terminal state and later resumed to PENDING". *)
Definition legal (from to : NodeStatus.Type_) : bool :=
  match from, to with
  | NodeStatus.PENDING, NodeStatus.IN_PROGRESS
  | NodeStatus.IN_PROGRESS, NodeStatus.COMPLETED
  | NodeStatus.IN_PROGRESS, NodeStatus.FAILED
  | NodeStatus.PAUSED, NodeStatus.PENDING
  | NodeStatus.PENDING, NodeStatus.PAUSED
  | NodeStatus.IN_PROGRESS, NodeStatus.PAUSED
  | NodeStatus.PAUSED, NodeStatus.PAUSED => true
  | _, _ => false
  end.

(** Modelled from the spec: update-status(s) "sets status; legal
    transitions are enumerated above; illegal transitions fail with
    InvalidTransition".  This is the write of the status only.  The report
    that sections 2 and 4.2 attach to a status change (a ReportingMessage
    handed to the reporting callback) is made by classes whose source is
    not part of this development and is not modelled: the trace of a
    status change holds the supervisor's own statements and nothing of
    what the Node does when it reports. *)
Definition updateStatus (s : NodeStatus.Type_) (n : t) : Completion t :=
  if legal (status n) s then Normal (with_status s n)
  else Throw (mkError "InvalidTransition" "illegal status transition").

(** Modelled from the spec: set-delay(ms) "stores delay". *)
Definition setDelay (d : Z) (n : t) : t := with_delay d n.

End Node.

Module NodeMonitoring.

(** Modelled from the spec: NodeMonitoring (core/NodeMonitoring.ts), whose
    source is not part of this development; add-node / remove-node
    "maintain membership" (section 4.2).  Nodes are referred to by
    identifier. *)
Record t := mk { members : gset string }.

Definition addNode (n : Node.t) (m : t) : t := mk (members m ∪ {[Node.id n]}).
Definition removeNode (nodeId : string) (m : t) : t := mk (members m ∖ {[nodeId]}).

End NodeMonitoring.

(* ===================================================================== *)
(** ** NodeSupervisor *)
(* ===================================================================== *)

Inductive Location : Type := local | remote.

#[global] Instance Location_eq_dec : EqDecision Location.
Proof. solve_decision. Defined.

(** [type ChainConfig = { services: string[]; location: 'local' | 'remote' }] *)
Record ChainConfig := mkChainConfig {
  services : list string;
  location : Location;
}.

(** The fields of the class.  [broadcastFunction] is injected: the
    supervisor only sees how the promise it returns settles. *)
Record NodeSupervisor := mkNodeSupervisor {
  uid : string;
  nodes : gmap string Node.t;
  nodeMonitoring : option NodeMonitoring.t;
  broadcastFunction : BrodcastMessage -> Completion unit;
  chainConfig : list ChainConfig;
  callbackOutput : CallbackPayload -> Completion unit;
}.

(** The process: the supervisor singleton, the identifiers handed out to
    Nodes so far, and what the platform will answer to [Date.now()] and
    [randomUUID()]. *)
Record World := mkWorld {
  sup : NodeSupervisor;
  issued : gset string;
  Date_now : Z;
  randomUUID : string;
}.

Definition on_sup (f : NodeSupervisor -> NodeSupervisor) (w : World) : World :=
  mkWorld (f (sup w)) (issued w) (Date_now w) (randomUUID w).

Definition on_nodes (f : gmap string Node.t -> gmap string Node.t)
  : World -> World :=
  on_sup (fun s => mkNodeSupervisor (uid s) (f (nodes s)) (nodeMonitoring s)
                     (broadcastFunction s) (chainConfig s) (callbackOutput s)).

(** [if (this.nodeMonitoring) { this.nodeMonitoring.f(...) }] *)
Definition on_monitoring (f : NodeMonitoring.t -> NodeMonitoring.t)
  : World -> World :=
  on_sup (fun s => mkNodeSupervisor (uid s) (nodes s) (f <$> nodeMonitoring s)
                     (broadcastFunction s) (chainConfig s) (callbackOutput s)).

(** The constructor and the setters. *)
Definition NodeSupervisor_new : NodeSupervisor :=
  mkNodeSupervisor "to be set from outside" ∅ None (fun _ => Normal tt) []
    (fun _ => Normal tt).

Definition setMonitoring (m : NodeMonitoring.t) (s : NodeSupervisor) :=
  mkNodeSupervisor (uid s) (nodes s) (Some m) (broadcastFunction s)
    (chainConfig s) (callbackOutput s).

Definition setBroadcastFunction (f : BrodcastMessage -> Completion unit)
  (s : NodeSupervisor) :=
  mkNodeSupervisor (uid s) (nodes s) (nodeMonitoring s) f (chainConfig s)
    (callbackOutput s).

Definition setChainConfig (config : list ChainConfig) (s : NodeSupervisor) :=
  mkNodeSupervisor (uid s) (nodes s) (nodeMonitoring s) (broadcastFunction s)
    config (callbackOutput s).

Definition setUid (u : string) (s : NodeSupervisor) :=
  mkNodeSupervisor u (nodes s) (nodeMonitoring s) (broadcastFunction s)
    (chainConfig s) (callbackOutput s).

(** Modelled from the spec: [new Node(dependencies)] assigns the Node a
    "fresh unique identifier", and "IDs are never reused": the identifier is
    one that was never issued before, and it is recorded as issued. *)
Definition Node_new (deps : list string) : Eff World Node.t :=
  fun w =>
    let i := fresh (issued w) in
    mkOut [] (mkWorld (sup w) ({[i]} ∪ issued w) (Date_now w) (randomUUID w))
          (Normal (Node.create i deps)).

Section Supervisor.

(** [node.execute(data)] and [node.sendData()] are methods of the Node
    class: they are taken as they come, with whatever effect on the
    process and whatever outcome.  The rejection of [execute] is passed on
    unread by [runNode]; the rejection of [sendData] is read by the [catch]
    of [sendNodeData], so it may be any value. *)
Variable Node_execute : Node.t -> PipelineData -> Eff World unit.
Variable Node_sendData : Node.t -> UserEff World unit.

Definition createNode (dependencies : option (list string))
  : Eff World string :=
  node ← Node_new (default [] dependencies);
  let nodeId := Node.getId node in
  modify (on_nodes <[nodeId := node]>) ;;
  modify (on_monitoring (NodeMonitoring.addNode node)) ;;
  Logger_info (Text ("Node " +:+ nodeId +:+ " created.")) ;;
  mret nodeId.

Definition deleteNode (nodeId : string) : Eff World unit :=
  w ← get;
  if decide (is_Some (nodes (sup w) !! nodeId)) then
    modify (on_nodes (delete nodeId)) ;;
    modify (on_monitoring (NodeMonitoring.removeNode nodeId)) ;;
    Logger_info (Text ("Node " +:+ nodeId +:+ " deleted."))
  else
    Logger_warn (Text ("Node " +:+ nodeId +:+ " not found.")).

Definition pauseNode (nodeId : string) : Eff World unit :=
  w ← get;
  match nodes (sup w) !! nodeId with
  | Some node =>
      node' ← settle (Node.updateStatus NodeStatus.PAUSED node);
      modify (on_nodes <[nodeId := node']>) ;;
      Logger_info (Text ("Node " +:+ nodeId +:+ " paused."))
  | None => Logger_warn (Text ("Node " +:+ nodeId +:+ " not found."))
  end.

Definition delayNode (nodeId : string) (delay : Z) : Eff World unit :=
  w ← get;
  match nodes (sup w) !! nodeId with
  | Some node =>
      modify (on_nodes <[nodeId := Node.setDelay delay node]>) ;;
      Logger_info (Text ("Node " +:+ nodeId +:+ " delayed by "
                         +:+ Number_toString delay +:+ " ms."))
  | None => Logger_warn (Text ("Node " +:+ nodeId +:+ " not found."))
  end.

Definition broadcastNodeCreationSignal : Eff World unit :=
  w ← get;
  let timestamp := Date_now w in
  let chainId :=
    uid (sup w) +:+ "-" +:+ Number_toString timestamp +:+ "-"
      +:+ slice0 8 (randomUUID w) in
  let message :=
    mkBrodcastMessage NodeSignal.NODE_CREATE
      (mkBrodcastChain chainId
         ((fun config => mkBrodcastStage (services config))
            <$> chainConfig (sup w))) in
  try_catch
    (emit (EvBroadcast message) ;;
     settle (broadcastFunction (sup w) message) ;;
     Logger_info
       (Text ("Node creation signal broadcasted with chainId: " +:+ chainId)))
    (fun error =>
       Logger_error
         (Text ("Failed to broadcast node creation signal: "
                +:+ Error_toString error))).

Definition startChain : Eff World unit :=
  w ← get;
  let localConfigs :=
    filter (fun config => location config = local) (chainConfig (sup w)) in
  let remoteConfigs :=
    filter (fun config => location config = remote) (chainConfig (sup w)) in
  for_of localConfigs (fun config => createNode None ;; mret tt) ;;
  if decide (0 < length remoteConfigs)%nat
  then broadcastNodeCreationSignal
  else mret tt.

Definition runNode (nodeId : string) (data : PipelineData) : Eff World unit :=
  w ← get;
  match nodes (sup w) !! nodeId with
  | Some node => Node_execute node data
  | None => Logger_warn (Text ("Node " +:+ nodeId +:+ " not found."))
  end.

(** The [catch] builds the log line from [error.message], where [error]
    is the caught value under a cast: on [null] or [undefined] that read
    throws inside the handler, before anything is logged. *)
Definition sendNodeData (nodeId : string) : Eff World unit :=
  w ← get;
  match nodes (sup w) !! nodeId with
  | Some node =>
      try_catch_any (Node_sendData node)
        (fun err =>
           text ← settle (read_message err);
           Logger_error
             (Text ("Node " +:+ nodeId +:+ " execution failed: " +:+ text)))
  | None => Logger_warn (Text ("Node " +:+ nodeId +:+ " not found."))
  end.

(** [Promise<void | string>]: [Some nodeId] from NODE_CREATE, [None]
    (that is [undefined]) otherwise. *)
Definition handleRequest (payload : SupervisorPayload)
  : Eff World (option string) :=
  let s := signal payload in
  if String.eqb s NodeSignal.NODE_CREATE then
    nodeId ← createNode (params payload); mret (Some nodeId)
  else if String.eqb s NodeSignal.NODE_DELETE then
    deleteNode (id payload) ;; mret None
  else if String.eqb s NodeSignal.NODE_PAUSE then
    pauseNode (id payload) ;; mret None
  else if String.eqb s NodeSignal.NODE_DELAY then
    delayNode (id payload) (delay payload) ;; mret None
  else if String.eqb s NodeSignal.NODE_RUN then
    runNode (id payload) (data payload) ;; mret None
  else if String.eqb s NodeSignal.NODE_SEND_DATA then
    sendNodeData (id payload) ;; mret None
  else
    Logger_warn (Text ("Unknown signal received: " +:+ s)) ;; mret None.

End Supervisor.

(* ===================================================================== *)
(** ** DefaultReportingCallbacks.ts *)
(* ===================================================================== *)

(** A service entry of a stage: a bare service id, or [{targetId, meta}]. *)
Inductive Service : Type :=
| ServiceId (s : string)
| ServiceConfig (targetId : string) (meta : option PipelineMeta).

(** [typeof service === 'string' ? service : service.targetId] and
    [typeof service === 'string' ? undefined : service.meta] *)
Definition Service_targetId (service : Service) : string :=
  match service with ServiceId s => s | ServiceConfig t _ => t end.

Definition Service_meta (service : Service) : option PipelineMeta :=
  match service with ServiceId _ => None | ServiceConfig _ m => m end.

(** A stage of the [ChainConfig] carried by a setup message.  The callback
    reads [services] and forwards the whole object, so the other properties
    are kept as they are. *)
Record NodeConfig := mkNodeConfig {
  nc_services : list Service;
  nc_rest : list (string * JsValue);
}.

Record BrodcastSetupMessage := mkBrodcastSetupMessage {
  bsm_signal : string;
  bsm_chain_id : string;
  bsm_chain_config : list NodeConfig;
}.

(** [BroadcastReportingMessage{chainId, ...}] *)
Record BroadcastReportingMessage := mkBroadcastReportingMessage {
  brm_chainId : string;
  brm_rest : list (string * JsValue);
}.

(** The objects as [JSON.stringify] sees them. *)
Definition json_of_option (v : option JsValue) : JsValue := default JUndefined v.

Definition json_of_Service (s : Service) : JsValue :=
  match s with
  | ServiceId s => JStr s
  | ServiceConfig t m => JObj [("targetId", JStr t); ("meta", json_of_option m)]
  end.

Definition json_of_NodeConfig (c : NodeConfig) : JsValue :=
  JObj (("services", JArr (json_of_Service <$> nc_services c)) :: nc_rest c).

Definition json_of_BrodcastSetupMessage (m : BrodcastSetupMessage) : JsValue :=
  JObj [("signal", JStr (bsm_signal m));
        ("chain", JObj [("id", JStr (bsm_chain_id m));
                        ("config", JArr (json_of_NodeConfig <$> bsm_chain_config m))])].

Definition json_of_CallbackPayload (p : CallbackPayload) : JsValue :=
  JObj [("chainId", json_of_option (JStr <$> cp_chainId p));
        ("targetId", JStr (cp_targetId p));
        ("meta", json_of_option (cp_meta p));
        ("data", cp_data p)].

Definition json_of_BroadcastReportingMessage (m : BroadcastReportingMessage)
  : JsValue :=
  JObj (("chainId", JStr (brm_chainId m)) :: brm_rest m).

(** [HostResolverCallback = (targetId, meta?) => string | undefined]: an
    injected function; it returns a host or [undefined], or it throws (an
    Error object, as the [catch] clauses of the callbacks take it). *)
Definition HostResolverCallback :=
  string -> option PipelineMeta -> Completion (option string).

Record BSCPayload := mkBSCPayload {
  bsc_message : BrodcastSetupMessage;
  bsc_hostResolver : HostResolverCallback;
  bsc_path : string;
}.

Record RSCPayload := mkRSCPayload {
  rsc_cbPayload : CallbackPayload;
  rsc_hostResolver : HostResolverCallback;
  rsc_path : string;
}.

Module MonitoringAgent.
(** Modelled from the spec: the Monitoring Agent (agents/MonitoringAgent),
    whose source is not part of this development; it "maps chainId ->
    remoteMonitoringHost URL" (section 4.5). *)
Definition t := gmap string string.
Definition getRemoteMonitoringHost (chainId : string) (a : t) : option string :=
  a !! chainId.
End MonitoringAgent.

Section Callbacks.

Context {St : Type}.

(** The platform and the transport:
    - [URL_new path base] is [new URL(path, base).href], or the TypeError
      the constructor throws;
    - [post url body] is how the promise of the HTTP call settles;
    - [retrieveAgent] reads the Monitoring Agent singleton. *)
Variable URL_new : string -> option string -> Completion string.
Variable post : string -> JsValue -> Completion unit.
Variable retrieveAgent : St -> MonitoringAgent.t.

Definition MonitoringResolverCallback := string -> Eff St (option string).

Record BRCPayload := mkBRCPayload {
  brc_message : BroadcastReportingMessage;
  brc_path : string;
  brc_monitoringResolver : MonitoringResolverCallback;
}.

Definition defaultMonitoringResolver (chainId : string)
  : Eff St (option string) :=
  try_catch
    (s ← get;
     let monitoring := retrieveAgent s in
     match MonitoringAgent.getRemoteMonitoringHost chainId monitoring with
     | Some monitoringHost =>
         Logger_info (Text ("Resolving host for monitoring: " +:+ monitoringHost)) ;;
         mret (Some monitoringHost)
     | None => throw (Error_new "monitoring not found")
     end)
    (fun error => Logger_error (Text (message error)) ;; mret None).

Definition broadcastReportingCallback (payload : BRCPayload) : Eff St unit :=
  let message := brc_message payload in
  let path := brc_path payload in
  let monitoringResolver := brc_monitoringResolver payload in
  monitoringHost ← monitoringResolver (brm_chainId message);
  url ← settle (URL_new path monitoringHost);
  let data := json_of_BroadcastReportingMessage message in
  emit (EvPost url data) ;;
  settle (post url data).

(** The closure that [setMonitoringCallbacks] installs as the supervisor's
    broadcast-reporting callback. *)
Definition installedBroadcastReporting (notify : string)
  (monitoringResolver : option MonitoringResolverCallback)
  (message : BroadcastReportingMessage) : Eff St unit :=
  broadcastReportingCallback
    (mkBRCPayload message notify
       (default defaultMonitoringResolver monitoringResolver)).

(** [void p]: the promise is dropped, neither awaited nor given a
    handler; however it settles, nothing here sees it. *)
Definition dropped {A} (promise : Completion A) : Eff St unit := mret tt.

(** One turn of the loop of [broadcastSetupCallback]; [continue] ends the
    turn.  The host resolver is called before the [try]: what it throws
    leaves the loop.  Inside the [try] the request is built and [post] is
    called, and its promise is dropped ([void post(url, data)]). *)
Definition setupStage (chainId : string) (hostResolver : HostResolverCallback)
  (path : string) (config : NodeConfig) : Eff St unit :=
  match nc_services config with
  | [] => Logger_warn (Text "Empty services array encountered in config")
  | service :: _ =>
      let targetId := Service_targetId service in
      let meta := Service_meta service in
      host ← settle (hostResolver targetId meta);
      if negb (truthy host) then
        Logger_warn (Text ("No container address found for targetId: " +:+ targetId))
      else
        try_catch
          (let data :=
             JObj [("chainId", JStr chainId);
                   ("remoteConfigs", json_of_NodeConfig config)] in
           url ← settle (URL_new path host);
           emit (EvPost url data) ;;
           dropped (post url data))
          (fun error =>
             Logger_error
               (Text ("Unexpected error sending setup request to "
                      +:+ default "" host +:+ " for targetId " +:+ targetId
                      +:+ ": " +:+ message error)))
  end.

Definition broadcastSetupCallback (payload : BSCPayload) : Eff St unit :=
  let message := bsc_message payload in
  let hostResolver := bsc_hostResolver payload in
  let path := bsc_path payload in
  Logger_info (TextJson "Broadcast message: " (json_of_BrodcastSetupMessage message)) ;;
  let chainConfigs := bsm_chain_config message in
  let chainId := bsm_chain_id message in
  for_of chainConfigs (setupStage chainId hostResolver path).

Definition remoteServiceCallback (payload : RSCPayload) : Eff St unit :=
  let cbPayload := rsc_cbPayload payload in
  let hostResolver := rsc_hostResolver payload in
  let path := rsc_path payload in
  Logger_info
    (TextJson "Service callback payload: "
       (JObj [("cbPayload", json_of_CallbackPayload cbPayload);
              ("path", JStr path)])) ;;
  try_catch
    ((if negb (truthy (cp_chainId cbPayload))
      then throw (Error_new "payload.chainId is undefined")
      else mret tt) ;;
     nextConnectorUrl ←
       settle (hostResolver (cp_targetId cbPayload) (cp_meta cbPayload));
     (if negb (truthy nextConnectorUrl)
      then throw (Error_new
                    ("Next connector URI not found for the following target service: "
                     +:+ cp_targetId cbPayload))
      else mret tt) ;;
     url ← settle (URL_new path nextConnectorUrl);
     Logger_info (Text ("Sending data to next connector on: " +:+ url)) ;;
     let data := json_of_CallbackPayload cbPayload in
     emit (EvPost url data) ;;
     settle (post url data))
    (fun error =>
       Logger_error
         (Text ("Error sending data to next connector: " +:+ message error)) ;;
       throw error).

(** The closures that [setResolverCallbacks] installs on the supervisor. *)
Definition installedBroadcastSetup (setup : string)
  (hostResolver : HostResolverCallback) (message : BrodcastSetupMessage)
  : Eff St unit :=
  broadcastSetupCallback (mkBSCPayload message hostResolver setup).

Definition installedRemoteService (run : string)
  (hostResolver : HostResolverCallback) (cbPayload : CallbackPayload)
  : Eff St unit :=
  remoteServiceCallback (mkRSCPayload cbPayload hostResolver run).

End Callbacks.

(* ===================================================================== *)
(** ** Node.sendData and the identifiers of a chain *)
(* ===================================================================== *)

(** Modelled from the spec: send-data() of section 4.1 (a method of the
    Node class, core/Node.ts): it "requires status = COMPLETED and
    output present; invokes the Supervisor's configured downstream delivery
    callback with {targetId: nextTarget, data: output, chainId, meta};
    clears output on success.  Fails with NoOutput if nothing to send."
    An error of the delivery callback is the error of send-data.  A terminal
    Node has no [nextTarget] and nothing is delivered for it. *)
Definition Node_sendData_spec (deliver : CallbackPayload -> Eff World unit)
  (n : Node.t) : Eff World unit :=
  match Node.status n, Node.output n with
  | NodeStatus.COMPLETED, Some out =>
      match Node.nextTarget n with
      | Some target =>
          deliver (mkCallbackPayload (Node.chainId n) target (Node.meta n) out) ;;
          modify (on_nodes <[Node.id n := Node.with_output None n]>)
      | None => mret tt
      end
  | _, _ => throw (mkError "NoOutput" "nothing to send")
  end.

(** Character classes and the shape of the identifiers. *)
Definition is_digit (c : ascii) : bool :=
  let n := nat_of_ascii c in (48 <=? n)%nat && (n <=? 57)%nat.

Definition is_hex_lower (c : ascii) : bool :=
  let n := nat_of_ascii c in
  is_digit c || ((97 <=? n)%nat && (n <=? 102)%nat).

Fixpoint all_chars (p : ascii -> bool) (s : string) : bool :=
  match s with
  | EmptyString => true
  | String c r => p c && all_chars p r
  end.

(** What [randomUUID()] of node:crypto returns: 36 characters, hyphens at
    positions 8, 13, 18 and 23, lower-case hexadecimal digits elsewhere. *)
Fixpoint uuid_shape (i : nat) (s : string) : bool :=
  match s with
  | EmptyString => (i =? 36)%nat
  | String c r =>
      (if (i =? 8)%nat || (i =? 13)%nat || (i =? 18)%nat || (i =? 23)%nat
       then Ascii.eqb c "-" else is_hex_lower c)
      && uuid_shape (S i) r
  end.

Definition is_uuid (s : string) : bool := uuid_shape 0 s.

(** The regular expression [^<uid>-\d+-[0-9a-f]{8}$], by hand: the prefix,
    the longest run of digits (not empty), a hyphen, eight hexadecimal
    digits, the end. *)
Fixpoint strip_prefix (p s : string) : option string :=
  match p, s with
  | EmptyString, _ => Some s
  | String a p', String b s' => if Ascii.eqb a b then strip_prefix p' s' else None
  | String _ _, EmptyString => None
  end.

Fixpoint drop_digits (s : string) : string :=
  match s with
  | String c r => if is_digit c then drop_digits r else s
  | EmptyString => s
  end.

Definition matches_chainId (u : string) (s : string) : bool :=
  match strip_prefix (u +:+ "-") s with
  | Some (String d r) =>
      is_digit d &&
      match drop_digits r with
      | String "-" hex => (String.length hex =? 8)%nat && all_chars is_hex_lower hex
      | _ => false
      end
  | _ => false
  end.

(** [^ci-\d+-[0-9a-f]{8}$] *)
Definition matches_ci : string -> bool := matches_chainId "ci".

(** The URL constructor on the inputs of the scenarios of the
    specification: a path that starts with a slash resolved against an
    origin ([http://peer2] and [/setup] give [http://peer2/setup]); the same
    path with no base, or an empty one, is not a URL and the constructor
    throws its TypeError. *)
Definition URL_on_origin (path : string) (base : option string)
  : Completion string :=
  match base with
  | Some b => if String.eqb b "" then Throw (TypeError_new "Invalid URL")
              else Normal (b +:+ path)
  | None => Throw (TypeError_new "Invalid URL")
  end.

(* ===================================================================== *)
(** ** Vocabulary of the properties, and the scenarios *)
(* ===================================================================== *)

(** The identifiers of [k] Nodes created in a row. *)
Fixpoint alloc_ids (k : nat) (X : gset string) : list string :=
  match k with
  | O => []
  | S k' => let i := fresh X in i :: alloc_ids k' ({[i]} ∪ X)
  end.

Definition created (ids : list string) : gmap string Node.t :=
  list_to_map ((fun i => (i, Node.create i [])) <$> ids).

Definition is_info (ev : Event) : Prop :=
  match ev with EvLog Info _ => True | _ => False end.

Definition chainId_of (w : World) : string :=
  uid (sup w) +:+ "-" +:+ Number_toString (Date_now w) +:+ "-"
    +:+ slice0 8 (randomUUID w).

Definition strip_location (config : ChainConfig) : BrodcastStage :=
  mkBrodcastStage (services config).

Definition creation_message (w : World) : BrodcastMessage :=
  mkBrodcastMessage NodeSignal.NODE_CREATE
    (mkBrodcastChain (chainId_of w) (strip_location <$> chainConfig (sup w))).

Definition broadcast_log (w : World) : Event :=
  match broadcastFunction (sup w) (creation_message w) with
  | Normal _ =>
      EvLog Info (Text ("Node creation signal broadcasted with chainId: "
                        +:+ chainId_of w))
  | Throw e =>
      EvLog Err (Text ("Failed to broadcast node creation signal: "
                       +:+ Error_toString e))
  end.

Definition locals (w : World) : list ChainConfig :=
  filter (fun config => location config = local) (chainConfig (sup w)).

Definition remotes (w : World) : list ChainConfig :=
  filter (fun config => location config = remote) (chainConfig (sup w)).

Definition config_S2 : list ChainConfig :=
  [mkChainConfig ["A"] local; mkChainConfig ["B"] remote].

Definition supervisor_S2 (broadcast : BrodcastMessage -> Completion unit)
  : NodeSupervisor :=
  setBroadcastFunction broadcast
    (setChainConfig config_S2 (setUid "ci" NodeSupervisor_new)).

Definition world_S2 (broadcast : BrodcastMessage -> Completion unit) : World :=
  mkWorld (supervisor_S2 broadcast) ∅ 1730000000000
          "3f2a9c1e-7b4d-4e8a-9c0f-5d6e7f8a9b0c".

Definition broadcast_ok : BrodcastMessage -> Completion unit :=
  fun _ => Normal tt.

Definition broadcast_boom : BrodcastMessage -> Completion unit :=
  fun _ => Throw (Error_new "boom").

(** The host resolver of scenario S2: B is on [http://peer2], nothing else
    is known. *)
Definition resolver_S2 : HostResolverCallback :=
  fun targetId _ =>
    Normal (if String.eqb targetId "B" then Some "http://peer2" else None).

Definition post_ok : string -> JsValue -> Completion unit := fun _ _ => Normal tt.
Definition post_500 : string -> JsValue -> Completion unit :=
  fun _ _ => Throw (Error_new "Request failed with status code 500").

Definition stage_A : NodeConfig := mkNodeConfig [ServiceId "A"] [].
Definition stage_B : NodeConfig := mkNodeConfig [ServiceId "B"] [].
Definition stage_BC : NodeConfig := mkNodeConfig [ServiceId "B"; ServiceId "C"] [].
Definition stage_empty : NodeConfig := mkNodeConfig [] [].

Definition setup_message (config : list NodeConfig) : BrodcastSetupMessage :=
  mkBrodcastSetupMessage NodeSignal.NODE_CREATE "ci-1730000000000-3f2a9c1e" config.

Definition setup_payload (config : list NodeConfig) : BSCPayload :=
  mkBSCPayload (setup_message config) resolver_S2 "/setup".


Definition node_S3 : Node.t :=
  Node.mk "A" [] [] NodeStatus.COMPLETED 0 (Some (JNum 42)) (Some "B")
          (Some "ci-1730000000000-3f2a9c1e") None.

Definition bogus_payload : SupervisorPayload :=
  mkSupervisorPayload "bogus" None "" 0 JUndefined.

(** A process with one registered Node, paused. *)
Definition node_paused : Node.t :=
  Node.mk "n1" [] [] NodeStatus.PAUSED 0 None None None None.

Definition world_paused : World :=
  mkWorld (mkNodeSupervisor "ci" {["n1" := node_paused]} None broadcast_ok []
             (fun _ => Normal tt))
          {["n1"]} 1730000000000 "3f2a9c1e-7b4d-4e8a-9c0f-5d6e7f8a9b0c".

(** A process with Node A of scenario S3 registered. *)
Definition world_S3 : World :=
  mkWorld (mkNodeSupervisor "ci" {["A" := node_S3]} None broadcast_ok []
             (fun _ => Normal tt))
          {["A"]} 1730000000000 "3f2a9c1e-7b4d-4e8a-9c0f-5d6e7f8a9b0c".

(** A process with two registered Nodes: Node A of scenario S3 and a
    Node that waits for its input. *)
Definition node_pending : Node.t :=
  Node.mk "n2" [] [] NodeStatus.PENDING 0 None None None None.

Definition world_two : World :=
  mkWorld (mkNodeSupervisor "ci" {["A" := node_S3; "n2" := node_pending]} None
             broadcast_ok [] (fun _ => Normal tt))
          {["A"; "n2"]} 1730000000000 "3f2a9c1e-7b4d-4e8a-9c0f-5d6e7f8a9b0c".

Definition execute_nothing : Node.t -> PipelineData -> Eff World unit :=
  fun _ _ => mret tt.

Definition sendData_S3 : Node.t -> UserEff World unit :=
  fun node =>
    of_Eff (Node_sendData_spec
              (installedRemoteService URL_on_origin post_500 "/run" resolver_S2)
              node).


(* ===================================================================== *)
(** ** NodeSupervisor: the remaining methods *)
(* ===================================================================== *)

Section Processors.

(** [node.addPipeline(processors)] is a method of the Node class: it is
    taken as it comes, with whatever effect and whatever outcome. *)
Variable Node_addPipeline : Node.t -> list Processor -> Eff World unit.

Definition addProcessors (nodeId : string) (processors : list Processor)
  : Eff World unit :=
  w ← get;
  match nodes (sup w) !! nodeId with
  | Some node =>
      Node_addPipeline node processors ;;
      Logger_info (Text ("Processors added to Node " +:+ nodeId +:+ "."))
  | None => Logger_warn (Text ("Node " +:+ nodeId +:+ " not found."))
  end.

End Processors.

Definition getNodes (s : NodeSupervisor) : gmap string Node.t := nodes s.

(** The signals that address an existing Node by [payload.id]. *)
Definition addressed_signals : list string :=
  [NodeSignal.NODE_DELETE; NodeSignal.NODE_PAUSE; NodeSignal.NODE_DELAY;
   NodeSignal.NODE_RUN; NodeSignal.NODE_SEND_DATA].

(** The signals the supervisor handles without calling into the pipeline
    of a Node. *)
Definition bookkeeping_signals : list string :=
  [NodeSignal.NODE_DELETE; NodeSignal.NODE_PAUSE; NodeSignal.NODE_DELAY].

Definition with_signal (s : string) (payload : SupervisorPayload)
  : SupervisorPayload :=
  mkSupervisorPayload s (params payload) (id payload) (delay payload)
    (data payload).

Definition with_id (i : string) (payload : SupervisorPayload)
  : SupervisorPayload :=
  mkSupervisorPayload (signal payload) (params payload) i (delay payload)
    (data payload).

(** What the host resolver answers for a stage: it is asked about the
    first service; a stage without services does not ask. *)
Definition stage_host (resolve : HostResolverCallback) (config : NodeConfig)
  : Completion (option string) :=
  match nc_services config with
  | [] => Normal None
  | first :: _ => resolve (Service_targetId first) (Service_meta first)
  end.

(** The stages the loop gets through: all of them, or those before the
    first stage on which the host resolver throws. *)
Fixpoint processed (resolve : HostResolverCallback) (configs : list NodeConfig)
  : list NodeConfig :=
  match configs with
  | [] => []
  | config :: rest =>
      match stage_host resolve config with
      | Normal _ => config :: processed resolve rest
      | Throw _ => []
      end
  end.

(** The error that ends the loop, if any. *)
Fixpoint aborted (resolve : HostResolverCallback) (configs : list NodeConfig)
  : option Error :=
  match configs with
  | [] => None
  | config :: rest =>
      match stage_host resolve config with
      | Normal _ => aborted resolve rest
      | Throw e => Some e
      end
  end.

(** The request, if any, that one stage of a setup message gives rise to:
    the URL and the body of its POST. *)
Definition setup_request (URL_new : string -> option string -> Completion string)
  (chainId : string) (resolve : HostResolverCallback) (path : string)
  (config : NodeConfig) : option (string * JsValue) :=
  match nc_services config with
  | [] => None
  | first :: _ =>
      match resolve (Service_targetId first) (Service_meta first) with
      | Normal host =>
          if truthy host then
            match URL_new path host with
            | Normal url =>
                Some (url, JObj [("chainId", JStr chainId);
                                 ("remoteConfigs", json_of_NodeConfig config)])
            | Throw _ => None
            end
          else None
      | Throw _ => None
      end
  end.

(** A host resolver that fails on the service A. *)
Definition resolver_fails_on_A : HostResolverCallback :=
  fun targetId _ =>
    if String.eqb targetId "A" then Throw (Error_new "registry unreachable")
    else if String.eqb targetId "B" then Normal (Some "http://peer2")
    else Normal None.

(** A Monitoring Agent that knows the monitoring host of one chain. *)
Definition agent_S2 : MonitoringAgent.t :=
  {["ci-1730000000000-3f2a9c1e" := "http://monitor"]}.

Definition report_S2 : BroadcastReportingMessage :=
  mkBroadcastReportingMessage "ci-1730000000000-3f2a9c1e"
    [("status", JStr "completed")].

Definition addPipeline_nothing : Node.t -> list Processor -> Eff World unit :=
  fun _ _ => mret tt.

Definition request (sig i : string) : SupervisorPayload :=
  mkSupervisorPayload sig None i 0 JUndefined.

(** The monitoring, when there is one, follows exactly the Nodes of the
    nodes map. *)
Definition monitoring_in_sync (w : World) : Prop :=
  forall m, nodeMonitoring (sup w) = Some m ->
            NodeMonitoring.members m = dom (nodes (sup w)).

Definition world_monitored : World :=
  mkWorld (setMonitoring (NodeMonitoring.mk ∅) (supervisor_S2 broadcast_ok)) ∅
          1730000000000 "3f2a9c1e-7b4d-4e8a-9c0f-5d6e7f8a9b0c".

(* ===================================================================== *)
(** * Properties *)
(* ===================================================================== *)

(** ** Running the monad *)

Lemma run_bind {St A B} (m : Eff St A) (k : A -> Eff St B) (s : St) :
  (m ≫= k) s =
  match completion (m s) with
  | Normal a =>
      mkOut (events (m s) ++ events (k a (final (m s))))
            (final (k a (final (m s)))) (completion (k a (final (m s))))
  | Throw e => mkOut (events (m s)) (final (m s)) (Throw e)
  end.
Proof. reflexivity. Qed.

Lemma run_mret {St A} (a : A) (s : St) :
  (mret a : Eff St A) s = mkOut [] s (Normal a).
Proof. reflexivity. Qed.

Lemma run_for_of_cons {St A} (x : A) l (body : A -> Eff St unit) (s : St) :
  for_of (x :: l) body s = (body x ≫= fun _ => for_of l body) s.
Proof. reflexivity. Qed.

Lemma World_eta (w : World) :
  mkWorld
    (mkNodeSupervisor (uid (sup w)) (nodes (sup w)) (nodeMonitoring (sup w))
       (broadcastFunction (sup w)) (chainConfig (sup w)) (callbackOutput (sup w)))
    (issued w) (Date_now w) (randomUUID w) = w.
Proof. destruct w as [[] ? ? ?]; reflexivity. Qed.

Lemma not_signal_eqb (s : string) :
  s ∉ NodeSignal.all ->
  String.eqb s NodeSignal.NODE_CREATE = false /\
  String.eqb s NodeSignal.NODE_DELETE = false /\
  String.eqb s NodeSignal.NODE_PAUSE = false /\
  String.eqb s NodeSignal.NODE_DELAY = false /\
  String.eqb s NodeSignal.NODE_RUN = false /\
  String.eqb s NodeSignal.NODE_SEND_DATA = false.
Proof.
  intros H. repeat split; apply String.eqb_neq; intros ->; apply H;
    unfold NodeSignal.all; set_solver.
Qed.

(** Unfold the operations of the monad. *)
Ltac eff_unfold :=
  cbv [mbind Eff_bind bind try_catch settle emit dropped Logger_info Logger_warn
       Logger_error throw mret Eff_ret ret negb completion final events app].

(** Run the trivial steps of a computation. *)
Ltac eff_steps :=
  repeat (progress (cbn [completion final events app]; rewrite ?run_mret)).

(** ** Signal dispatch *)

Section Dispatch.

Variable Node_execute : Node.t -> PipelineData -> Eff World unit.
Variable Node_sendData : Node.t -> UserEff World unit.

Local Abbreviation handle := (handleRequest Node_execute Node_sendData).

(** C8.  A payload whose signal is none of the six NODE_* signals leaves
    the whole process state as it was and resolves with [undefined]; the
    only thing that happens is one warning, "Unknown signal received:
    <signal>" (so no report, broadcast or HTTP call is made). *)
Theorem handleRequest_unknown_signal (w : World) (payload : SupervisorPayload) :
  signal payload ∉ NodeSignal.all ->
  handle payload w =
  mkOut [EvLog Warn (Text ("Unknown signal received: " +:+ signal payload))]
        w (Normal None).
Proof.
  intros H. apply not_signal_eqb in H as (H1 & H2 & H3 & H4 & H5 & H6).
  unfold handleRequest. rewrite H1, H2, H3, H4, H5, H6. reflexivity.
Qed.

(** C9.  NODE_DELETE on an id that is not in the nodes map changes
    nothing (nodes map, monitoring and the rest of the state are as
    before) and only logs the warning "Node <id> not found."; NODE_PAUSE
    on a Node whose status is already PAUSED leaves the Node, and the
    whole state, as it was. *)
Theorem delete_unknown_pause_paused_noop (w : World) (payload : SupervisorPayload) :
  (signal payload = NodeSignal.NODE_DELETE ->
   nodes (sup w) !! id payload = None ->
   handle payload w =
   mkOut [EvLog Warn (Text ("Node " +:+ id payload +:+ " not found."))]
         w (Normal None))
  /\
  (forall node,
      signal payload = NodeSignal.NODE_PAUSE ->
      nodes (sup w) !! id payload = Some node ->
      Node.status node = NodeStatus.PAUSED ->
      final (handle payload w) = w /\
      nodes (sup (final (handle payload w))) !! id payload = Some node /\
      completion (handle payload w) = Normal None).
Proof.
  split.
  - intros Hs Hn. unfold handleRequest. rewrite Hs. cbn.
    unfold deleteNode. rewrite !run_bind. cbn.
    rewrite Hn. destruct (decide (is_Some None)) as [[? ?]|_]; [discriminate|].
    reflexivity.
  - intros node Hs Hn Hp. unfold handleRequest. rewrite Hs. cbn.
    unfold pauseNode. rewrite !run_bind. cbn. rewrite Hn.
    assert (Hup : Node.updateStatus NodeStatus.PAUSED node = Normal node).
    { unfold Node.updateStatus. rewrite Hp. cbn.
      destruct node; cbn in *; subst; reflexivity. }
    rewrite !run_bind. cbn. rewrite Hup. cbn.
    rewrite !run_bind. cbn. unfold on_nodes, on_sup. cbn.
    rewrite insert_id by exact Hn.
    rewrite World_eta. auto.
Qed.


End Dispatch.

(** ** Chain start *)

Lemma alloc_ids_length k X : length (alloc_ids k X) = k.
Proof. revert X; induction k; intros; cbn; auto. Qed.

Lemma alloc_ids_fresh k X i : i ∈ alloc_ids k X -> i ∉ X.
Proof.
  revert X; induction k as [|k IH]; intros X; cbn.
  - intros H; inversion H.
  - intros [->|H]%elem_of_cons.
    + apply is_fresh.
    + apply IH in H. set_solver.
Qed.

Lemma alloc_ids_NoDup k X : NoDup (alloc_ids k X).
Proof.
  revert X; induction k as [|k IH]; intros X; cbn; constructor; auto.
  intros H%alloc_ids_fresh. set_solver.
Qed.

Lemma created_lookup_None ids i : i ∉ ids -> created ids !! i = None.
Proof.
  intros H. unfold created. apply not_elem_of_list_to_map_1.
  rewrite <- list_fmap_compose. cbn. now rewrite list_fmap_id.
Qed.

Lemma created_lookup_Some ids i :
  NoDup ids -> i ∈ ids -> created ids !! i = Some (Node.create i []).
Proof.
  intros Hnd Hi. unfold created. apply elem_of_list_to_map_1.
  - rewrite <- list_fmap_compose. cbn. now rewrite list_fmap_id.
  - apply list_elem_of_fmap. eauto.
Qed.

Lemma info_only (t : list Event) :
  Forall is_info t ->
  broadcasts t = [] /\ posts t = [] /\ logged Err t = [] /\ logged Warn t = [].
Proof.
  induction 1 as [|ev t Hev _ IH]; [now cbn|].
  destruct ev as [[] ?| |]; cbn in Hev; try contradiction. exact IH.
Qed.

Lemma createNode_run deps w :
  let i := fresh (issued w) in
  let node := Node.create i (default [] deps) in
  createNode deps w =
  mkOut [EvLog Info (Text ("Node " +:+ i +:+ " created."))]
        (mkWorld
           (mkNodeSupervisor (uid (sup w)) (<[i := node]> (nodes (sup w)))
              (NodeMonitoring.addNode node <$> nodeMonitoring (sup w))
              (broadcastFunction (sup w)) (chainConfig (sup w))
              (callbackOutput (sup w)))
           ({[i]} ∪ issued w) (Date_now w) (randomUUID w))
        (Normal i).
Proof. reflexivity. Qed.

(** The loop of [startChain] over the local configs. *)
Lemma createNodes_run (l : list ChainConfig) (w : World) :
  dom (nodes (sup w)) ⊆ issued w ->
  let o := for_of l (fun _ => createNode None ;; mret tt) w in
  let ids := alloc_ids (length l) (issued w) in
  completion o = Normal tt /\
  nodes (sup (final o)) = created ids ∪ nodes (sup w) /\
  dom (nodes (sup (final o))) ⊆ issued (final o) /\
  Forall is_info (events o) /\
  uid (sup (final o)) = uid (sup w) /\
  broadcastFunction (sup (final o)) = broadcastFunction (sup w) /\
  chainConfig (sup (final o)) = chainConfig (sup w) /\
  Date_now (final o) = Date_now w /\
  randomUUID (final o) = randomUUID w.
Proof.
  revert w. induction l as [|c l IH]; intros w Hinv.
  - cbn. unfold created. cbn. rewrite (left_id_L ∅ (∪)).
    repeat split; auto.
  - rewrite run_for_of_cons. cbn [length alloc_ids].
    rewrite run_bind, run_bind, createNode_run. cbn [completion final events].
    set (i := fresh (issued w)).
    set (w1 := mkWorld _ _ _ _).
    assert (Hinv1 : dom (nodes (sup w1)) ⊆ issued w1).
    { subst w1; cbn. rewrite dom_insert_L. apply union_mono_l, Hinv. }
    specialize (IH w1 Hinv1). cbn zeta in IH.
    destruct IH as (Hc & Hn & Hd & Hl & Hu & Hb & Hcfg & Ht & Hr).
    rewrite run_mret. cbn [completion final events app].
    change (issued w1) with ({[i]} ∪ issued w) in *.
    repeat split; auto.
    + rewrite Hn. subst w1; cbn.
      unfold created. cbn. fold (created (alloc_ids (length l) ({[i]} ∪ issued w))).
      rewrite <- insert_union_l, <- insert_union_r; [reflexivity|].
      apply created_lookup_None. intros H%alloc_ids_fresh. set_solver.
    + constructor; [exact I|]. exact Hl.
Qed.

Lemma broadcastNodeCreationSignal_run (w : World) :
  broadcastNodeCreationSignal w =
  mkOut [EvBroadcast (creation_message w);
         match broadcastFunction (sup w) (creation_message w) with
         | Normal _ =>
             EvLog Info (Text ("Node creation signal broadcasted with chainId: "
                               +:+ chainId_of w))
         | Throw e =>
             EvLog Err (Text ("Failed to broadcast node creation signal: "
                              +:+ Error_toString e))
         end]
        w (Normal tt).
Proof.
  unfold broadcastNodeCreationSignal. rewrite run_bind. cbn.
  fold (chainId_of w). fold strip_location. fold (creation_message w).
  unfold try_catch. rewrite !run_bind. cbn.
  destruct (broadcastFunction (sup w) (creation_message w)) as [[]|e]; reflexivity.
Qed.

(** C4.  The message handed to the broadcast function has signal
    NODE_CREATE; its chain config has one stage per stage of the
    supervisor's chain config, in the same order, each made of the
    [services] of that stage and nothing else (a [BrodcastStage] has no
    location); exactly one such message is built, whether or not the
    broadcast function then fails. *)
Theorem creation_message_strips_location (w : World) :
  exists m,
    broadcasts (events (broadcastNodeCreationSignal w)) = [m] /\
    bm_signal m = NodeSignal.NODE_CREATE /\
    chain_config (bm_chain m) =
      (fun config => mkBrodcastStage (services config)) <$> chainConfig (sup w) /\
    length (chain_config (bm_chain m)) = length (chainConfig (sup w)) /\
    (forall k config,
        chainConfig (sup w) !! k = Some config ->
        bs_services <$> chain_config (bm_chain m) !! k = Some (services config)).
Proof.
  exists (creation_message w). rewrite broadcastNodeCreationSignal_run.
  repeat split.
  - cbn. destruct (broadcastFunction _ _); reflexivity.
  - cbn. apply length_fmap.
  - intros k config Hk. cbn. rewrite list_lookup_fmap, Hk. reflexivity.
Qed.

(** *** The shape of a chainId *)

Lemma string_of_uint_digits (u : Decimal.uint) :
  all_chars is_digit (NilEmpty.string_of_uint u) = true.
Proof. induction u; cbn; auto. Qed.

Lemma Number_toString_digits (n : Z) :
  0 <= n ->
  exists d ds, Number_toString n = String d ds /\
               is_digit d = true /\ all_chars is_digit ds = true.
Proof.
  intros Hn. unfold Number_toString.
  destruct n as [|p|p]; [| |lia].
  - exists "0"%char, EmptyString. auto.
  - cbn. pose proof (string_of_uint_digits (Pos.to_uint p)) as H.
    destruct (Pos.to_uint p); cbn in *;
      eexists _, _; (split; [reflexivity|split; [reflexivity|exact H]]).
Qed.

Lemma uuid_slice (s : string) :
  is_uuid s = true ->
  String.length (slice0 8 s) = 8%nat /\ all_chars is_hex_lower (slice0 8 s) = true.
Proof.
  unfold is_uuid, slice0. intros H.
  do 8 (destruct s as [|? s]; [discriminate H|];
        cbn [uuid_shape Nat.eqb orb] in H;
        apply andb_true_iff in H as [? H]).
  cbn [substring].
  assert (substring 0 0 s = "") as -> by (destruct s; reflexivity).
  cbn [String.length all_chars]. split; [reflexivity|].
  repeat match goal with Hc : is_hex_lower _ = true |- _ => rewrite Hc; clear Hc end.
  reflexivity.
Qed.

Lemma append_String (a : ascii) (u v : string) :
  String a u +:+ v = String a (u +:+ v).
Proof. reflexivity. Qed.

Lemma append_empty (v : string) : "" +:+ v = v.
Proof. reflexivity. Qed.

Lemma strip_prefix_app_l (u v s : string) :
  strip_prefix (u +:+ v) (u +:+ s) = strip_prefix v s.
Proof.
  induction u as [|a u IH]; rewrite ?append_empty, ?append_String;
    cbn [strip_prefix]; [reflexivity|].
  now rewrite Ascii.eqb_refl.
Qed.

Lemma drop_digits_app (ds r : string) :
  all_chars is_digit ds = true -> drop_digits (ds +:+ String "-" r) = String "-" r.
Proof.
  induction ds as [|c ds IH]; rewrite ?append_empty, ?append_String;
    cbn [all_chars drop_digits]; [reflexivity|].
  intros [Hc Hds]%andb_true_iff. rewrite Hc. auto.
Qed.

Lemma matches_chainId_shape (u : string) d ds hex :
  is_digit d = true -> all_chars is_digit ds = true ->
  String.length hex = 8%nat -> all_chars is_hex_lower hex = true ->
  matches_chainId u (u +:+ "-" +:+ String d ds +:+ "-" +:+ hex) = true.
Proof.
  intros Hd Hds Hl Hh. unfold matches_chainId.
  rewrite strip_prefix_app_l, !append_String, append_empty. cbn [strip_prefix].
  change (Ascii.eqb "-" "-") with true. cbn iota. rewrite Hd.
  rewrite drop_digits_app by assumption. rewrite append_empty, Hl, Hh. reflexivity.
Qed.

(** C5.  With the clock at a non-negative number of milliseconds and
    [randomUUID()] returning a UUID, the chainId of the broadcast message is
    the supervisor's uid, a hyphen, the decimal digits of [Date.now()], a
    hyphen, and eight lower-case hexadecimal digits; so it matches
    [^<uid>-\d+-[0-9a-f]{8}$], and for uid 'ci' it matches
    [^ci-\d+-[0-9a-f]{8}$]. *)
Theorem chainId_format (w : World) :
  0 <= Date_now w ->
  is_uuid (randomUUID w) = true ->
  exists m millis hex,
    broadcasts (events (broadcastNodeCreationSignal w)) = [m] /\
    chain_id (bm_chain m) = uid (sup w) +:+ "-" +:+ millis +:+ "-" +:+ hex /\
    millis = Number_toString (Date_now w) /\
    millis <> "" /\ all_chars is_digit millis = true /\
    String.length hex = 8%nat /\ all_chars is_hex_lower hex = true /\
    matches_chainId (uid (sup w)) (chain_id (bm_chain m)) = true /\
    (uid (sup w) = "ci" -> matches_ci (chain_id (bm_chain m)) = true).
Proof.
  intros Hnow Huuid.
  destruct (Number_toString_digits _ Hnow) as (d & ds & Hm & Hd & Hds).
  destruct (uuid_slice _ Huuid) as [Hl Hh].
  exists (creation_message w), (Number_toString (Date_now w)), (slice0 8 (randomUUID w)).
  rewrite broadcastNodeCreationSignal_run.
  assert (Hmatch : matches_chainId (uid (sup w)) (chainId_of w) = true).
  { unfold chainId_of. rewrite Hm. now apply matches_chainId_shape. }
  repeat split; auto.
  - cbn. destruct (broadcastFunction _ _); reflexivity.
  - rewrite Hm. discriminate.
  - rewrite Hm. cbn. now rewrite Hd, Hds.
  - intros Hu. unfold matches_ci. rewrite <- Hu. exact Hmatch.
Qed.

(** *** startChain *)

Lemma startChain_run (w : World) :
  dom (nodes (sup w)) ⊆ issued w ->
  let o := startChain w in
  let ids := alloc_ids (length (locals w)) (issued w) in
  completion o = Normal tt /\
  nodes (sup (final o)) = created ids ∪ nodes (sup w) /\
  exists t,
    Forall is_info t /\
    events o =
    t ++ (if decide (0 < length (remotes w))%nat
          then [EvBroadcast (creation_message w); broadcast_log w] else []).
Proof.
  intros Hinv. cbn zeta. unfold startChain. rewrite run_bind.
  cbn [get completion final events app].
  fold (locals w). fold (remotes w). rewrite run_bind.
  destruct (createNodes_run (locals w) w Hinv)
    as (Hc & Hn & _ & Hl & Hu & Hb & Hcfg & Ht & Hr).
  set (o1 := for_of (locals w) _ w) in *.
  rewrite Hc. cbn [completion final events].
  assert (Hmsg : creation_message (final o1) = creation_message w).
  { unfold creation_message, chainId_of. now rewrite Hu, Hcfg, Ht, Hr. }
  assert (Hlog : broadcast_log (final o1) = broadcast_log w).
  { unfold broadcast_log, chainId_of. now rewrite Hmsg, Hb, Hu, Ht, Hr. }
  destruct (decide (0 < length (remotes w))%nat).
  - rewrite broadcastNodeCreationSignal_run. fold (broadcast_log (final o1)).
    cbn [completion final events]. rewrite Hmsg, Hlog. eauto.
  - rewrite run_mret. cbn [completion final events]. eauto.
Qed.

Lemma created_disjoint (w : World) k :
  dom (nodes (sup w)) ⊆ issued w ->
  created (alloc_ids k (issued w)) ##ₘ nodes (sup w).
Proof.
  intros Hinv. apply map_disjoint_spec. intros i x y Hx Hy.
  assert (Hi : i ∈ alloc_ids k (issued w)).
  { destruct (decide (i ∈ alloc_ids k (issued w))) as [|Hni]; [assumption|].
    rewrite (created_lookup_None _ _ Hni) in Hx. discriminate. }
  apply alloc_ids_fresh in Hi. apply Hi, Hinv. apply elem_of_dom. eauto.
Qed.

Lemma remotes_nonempty (w : World) :
  (0 < length (remotes w))%nat <->
  exists config, config ∈ chainConfig (sup w) /\ location config = remote.
Proof.
  unfold remotes. split.
  - destruct (filter _ _) as [|c l] eqn:E; cbn; [lia|]. intros _.
    assert (Hc : c ∈ filter (fun config => location config = remote)
                   (chainConfig (sup w))) by (rewrite E; left).
    apply list_elem_of_filter in Hc as [? ?]. eauto.
  - intros (c & Hc & Hr).
    assert (Hin : c ∈ filter (fun config => location config = remote)
                    (chainConfig (sup w))) by (apply list_elem_of_filter; auto).
    destruct (filter _ _); [inversion Hin|cbn; lia].
Qed.

(** C1.  In a process where every registered Node id was issued earlier,
    [startChain] creates one Node per config whose location is 'local': the
    new Nodes have pairwise distinct ids that were not in the nodes map
    before, each is registered in the nodes map as a new, empty Node, the
    Nodes that were there are untouched, and the map grows by exactly the
    number of local configs.  The broadcast function is called (once) if and
    only if some config has location 'remote'. *)
Theorem startChain_local_nodes_remote_broadcast (w : World) :
  dom (nodes (sup w)) ⊆ issued w ->
  let o := startChain w in
  exists ids : list string,
    length ids = length (filter (fun config => location config = local)
                           (chainConfig (sup w))) /\
    NoDup ids /\
    (forall i, i ∈ ids ->
       nodes (sup w) !! i = None /\
       nodes (sup (final o)) !! i = Some (Node.create i [])) /\
    (forall i, i ∉ ids -> nodes (sup (final o)) !! i = nodes (sup w) !! i) /\
    size (nodes (sup (final o))) = (size (nodes (sup w)) + length ids)%nat /\
    (broadcasts (events o) = [creation_message w] <->
     exists config, config ∈ chainConfig (sup w) /\ location config = remote) /\
    (broadcasts (events o) = [] <->
     ~ exists config, config ∈ chainConfig (sup w) /\ location config = remote) /\
    completion o = Normal tt.
Proof.
  intros Hinv o.
  destruct (startChain_run w Hinv) as (Hc & Hn & t & Ht & Hev). fold o in Hc, Hn, Hev.
  set (ids := alloc_ids (length (locals w)) (issued w)) in *.
  pose proof (created_disjoint w (length (locals w)) Hinv) as Hdisj. fold ids in Hdisj.
  pose proof (alloc_ids_NoDup (length (locals w)) (issued w)) as Hnd. fold ids in Hnd.
  assert (Hb : broadcasts (events o) =
               if decide (0 < length (remotes w))%nat then [creation_message w] else []).
  { rewrite Hev. unfold broadcasts. rewrite omap_app. fold (broadcasts t).
    destruct (info_only t Ht) as (-> & _). cbn.
    destruct (decide _); [|reflexivity]. cbn.
    unfold broadcast_log. destruct (broadcastFunction _ _); reflexivity. }
  exists ids. repeat split.
  - apply alloc_ids_length.
  - exact Hnd.
  - apply eq_None_not_Some. intros Hs.
    apply alloc_ids_fresh in H. apply H, Hinv, elem_of_dom, Hs.
  - rewrite Hn. apply lookup_union_Some_l. now apply created_lookup_Some.
  - intros i Hi. rewrite Hn. apply lookup_union_r. now apply created_lookup_None.
  - rewrite Hn, (map_size_disj_union _ _ Hdisj). unfold created.
    rewrite map_size_list_to_map.
    + rewrite length_fmap. lia.
    + rewrite <- list_fmap_compose. cbn. now rewrite list_fmap_id.
  - rewrite Hb. destruct (decide _) as [Hr|Hr]; [|discriminate].
    intros _. now apply remotes_nonempty.
  - intros Hr%remotes_nonempty. rewrite Hb. now destruct (decide _).
  - rewrite Hb. destruct (decide _) as [Hr|Hr]; [discriminate|].
    intros _ Hex%remotes_nonempty. contradiction.
  - intros Hnex. rewrite Hb. destruct (decide _) as [Hr|Hr]; [|reflexivity].
    apply remotes_nonempty in Hr. contradiction.
  - exact Hc.
Qed.

(** *** Scenario S2: a local stage A, a remote stage B, initiator 'ci' *)

Lemma world_S2_inv broadcast :
  dom (nodes (sup (world_S2 broadcast))) ⊆ issued (world_S2 broadcast).
Proof. cbn. rewrite dom_empty_L. reflexivity. Defined.

Lemma startChain_witness :
  dom (nodes (sup (world_S2 broadcast_ok))) ⊆ issued (world_S2 broadcast_ok) /\
  let o := startChain (world_S2 broadcast_ok) in
  exists ids : list string,
    length ids = length (filter (fun config => location config = local)
                           (chainConfig (sup (world_S2 broadcast_ok)))) /\
    NoDup ids /\
    (forall i, i ∈ ids ->
       nodes (sup (world_S2 broadcast_ok)) !! i = None /\
       nodes (sup (final o)) !! i = Some (Node.create i [])) /\
    (forall i, i ∉ ids ->
       nodes (sup (final o)) !! i = nodes (sup (world_S2 broadcast_ok)) !! i) /\
    size (nodes (sup (final o))) =
      (size (nodes (sup (world_S2 broadcast_ok))) + length ids)%nat /\
    (broadcasts (events o) = [creation_message (world_S2 broadcast_ok)] <->
     exists config, config ∈ chainConfig (sup (world_S2 broadcast_ok)) /\
                    location config = remote) /\
    (broadcasts (events o) = [] <->
     ~ exists config, config ∈ chainConfig (sup (world_S2 broadcast_ok)) /\
                      location config = remote) /\
    completion o = Normal tt.
Proof.
  split.
  - apply world_S2_inv.
  - apply (startChain_local_nodes_remote_broadcast (world_S2 broadcast_ok)).
    apply world_S2_inv.
Defined.

Example startChain_S2 :
  let o := startChain (world_S2 broadcast_ok) in
  size (nodes (sup (final o))) = 1%nat /\
  (chain_id ∘ bm_chain) <$> broadcasts (events o) = ["ci-1730000000000-3f2a9c1e"] /\
  (chain_config ∘ bm_chain) <$> broadcasts (events o)
    = [[mkBrodcastStage ["A"]; mkBrodcastStage ["B"]]].
Proof. vm_compute. auto. Qed.

Lemma chainId_format_witness :
  0 <= Date_now (world_S2 broadcast_ok) /\
  is_uuid (randomUUID (world_S2 broadcast_ok)) = true /\
  exists m millis hex,
    broadcasts (events (broadcastNodeCreationSignal (world_S2 broadcast_ok))) = [m] /\
    chain_id (bm_chain m) = "ci" +:+ "-" +:+ millis +:+ "-" +:+ hex /\
    millis = Number_toString 1730000000000 /\
    millis <> "" /\ all_chars is_digit millis = true /\
    String.length hex = 8%nat /\ all_chars is_hex_lower hex = true /\
    matches_chainId "ci" (chain_id (bm_chain m)) = true /\
    ("ci" = "ci" -> matches_ci (chain_id (bm_chain m)) = true).
Proof.
  split; [cbn; lia|]. split; [reflexivity|].
  apply (chainId_format (world_S2 broadcast_ok)); [cbn; lia|reflexivity].
Defined.

(** C6, as stated, fails: when the broadcast function raises "boom", both
    [broadcastNodeCreationSignal] and [startChain] resolve normally; no
    error reaches the caller. *)
Lemma broadcast_failure_is_swallowed :
  (forall m, broadcastFunction (sup (world_S2 broadcast_boom)) m
             = Throw (Error_new "boom")) /\
  completion (broadcastNodeCreationSignal (world_S2 broadcast_boom)) = Normal tt /\
  completion (startChain (world_S2 broadcast_boom)) = Normal tt /\
  ~ (exists e, completion (startChain (world_S2 broadcast_boom)) = Throw e).
Proof.
  split; [reflexivity|]. split; [reflexivity|].
  assert (H : completion (startChain (world_S2 broadcast_boom)) = Normal tt)
    by (vm_compute; reflexivity).
  split; [exact H|]. intros [e He]. rewrite H in He. discriminate.
Qed.

(** C6, amended.  When some config is remote and the broadcast function
    raises [e] on the creation message, the failure is logged ("Failed to
    broadcast node creation signal: <e>"), it is the only error logged, and
    [startChain] resolves normally: nothing is reported to the caller.  The
    local Nodes created before the broadcast stay registered, and so does
    every Node that was registered before (no rollback). *)
Theorem broadcast_failure_logged_no_rollback (w : World) (e : Error) :
  dom (nodes (sup w)) ⊆ issued w ->
  (exists config, config ∈ chainConfig (sup w) /\ location config = remote) ->
  broadcastFunction (sup w) (creation_message w) = Throw e ->
  let o := startChain w in
  completion o = Normal tt /\
  broadcasts (events o) = [creation_message w] /\
  logged Err (events o) =
    [Text ("Failed to broadcast node creation signal: " +:+ Error_toString e)] /\
  nodes (sup w) ⊆ nodes (sup (final o)) /\
  exists ids : list string,
    length ids = length (filter (fun config => location config = local)
                           (chainConfig (sup w))) /\
    NoDup ids /\
    forall i, i ∈ ids ->
      nodes (sup w) !! i = None /\
      nodes (sup (final o)) !! i = Some (Node.create i []).
Proof.
  intros Hinv Hrem%remotes_nonempty Hthrow o.
  destruct (startChain_run w Hinv) as (Hc & Hn & t & Ht & Hev). fold o in Hc, Hn, Hev.
  destruct (decide _) as [_|]; [|contradiction].
  destruct (info_only t Ht) as (Hb & _ & He & _).
  pose proof (created_disjoint w (length (locals w)) Hinv) as Hdisj.
  split; [exact Hc|]. split; [|split; [|split]].
  - rewrite Hev. unfold broadcasts. rewrite omap_app. fold (broadcasts t).
    rewrite Hb. unfold broadcast_log. now rewrite Hthrow.
  - rewrite Hev. unfold logged. rewrite omap_app. fold (logged Err t).
    rewrite He. unfold broadcast_log. now rewrite Hthrow.
  - rewrite Hn. now apply map_union_subseteq_r.
  - exists (alloc_ids (length (locals w)) (issued w)).
    split; [apply alloc_ids_length|]. split; [apply alloc_ids_NoDup|].
    intros i Hi. split.
    + apply eq_None_not_Some. intros Hs.
      apply alloc_ids_fresh in Hi. apply Hi, Hinv, elem_of_dom, Hs.
    + rewrite Hn. apply lookup_union_Some_l.
      apply created_lookup_Some; [apply alloc_ids_NoDup|exact Hi].
Qed.

Lemma broadcast_failure_witness :
  let w := world_S2 broadcast_boom in
  let o := startChain w in
  dom (nodes (sup w)) ⊆ issued w /\
  (exists config, config ∈ chainConfig (sup w) /\ location config = remote) /\
  broadcastFunction (sup w) (creation_message w) = Throw (Error_new "boom") /\
  completion o = Normal tt /\
  logged Err (events o) =
    [Text ("Failed to broadcast node creation signal: "
           +:+ Error_toString (Error_new "boom"))].
Proof.
  cbn zeta.
  assert (Hrem : exists config,
             config ∈ chainConfig (sup (world_S2 broadcast_boom)) /\
             location config = remote).
  { exists (mkChainConfig ["B"] remote). split; [|reflexivity].
    right. left. }
  split; [apply world_S2_inv|]. split; [exact Hrem|]. split; [reflexivity|].
  destruct (broadcast_failure_logged_no_rollback (world_S2 broadcast_boom)
              (Error_new "boom") (world_S2_inv _) Hrem eq_refl)
    as (Hc & _ & He & _).
  split; [exact Hc|exact He].
Defined.

(** ** The default callbacks *)

Section CallbackProperties.

Context {St : Type}.
Variable URL_new : string -> option string -> Completion string.
Variable post : string -> JsValue -> Completion unit.

Lemma setupStage_run (send : string -> JsValue -> Completion unit)
  chainId resolve path config (s : St) :
  setupStage URL_new send chainId resolve path config s =
  match nc_services config with
  | [] =>
      mkOut [EvLog Warn (Text "Empty services array encountered in config")]
            s (Normal tt)
  | first :: _ =>
      let targetId := Service_targetId first in
      match resolve targetId (Service_meta first) with
      | Throw e => mkOut [] s (Throw e)
      | Normal host =>
          if truthy host then
            match URL_new path host with
            | Normal url =>
                mkOut [EvPost url (JObj [("chainId", JStr chainId);
                                         ("remoteConfigs", json_of_NodeConfig config)])]
                      s (Normal tt)
            | Throw e =>
                mkOut [EvLog Err
                         (Text ("Unexpected error sending setup request to "
                                +:+ default "" host +:+ " for targetId " +:+ targetId
                                +:+ ": " +:+ message e))]
                      s (Normal tt)
            end
          else
            mkOut [EvLog Warn (Text ("No container address found for targetId: "
                                     +:+ targetId))]
                  s (Normal tt)
      end
  end.
Proof.
  unfold setupStage. destruct (nc_services config) as [|first others]; [reflexivity|].
  cbv zeta. rewrite run_bind. unfold settle at 1 2 3. cbn [completion final events].
  destruct (resolve _ _) as [host|e]; [|reflexivity].
  destruct (truthy host); cbn [negb]; [|reflexivity].
  eff_unfold. destruct (URL_new path host); reflexivity.
Qed.

Lemma setupStage_settles chainId resolve path config (s : St) :
  final (setupStage URL_new post chainId resolve path config s) = s /\
  completion (setupStage URL_new post chainId resolve path config s)
  = match stage_host resolve config with
    | Normal _ => Normal tt
    | Throw e => Throw e
    end.
Proof.
  rewrite setupStage_run. unfold stage_host.
  destruct (nc_services config) as [|first others]; [now split|].
  cbv zeta. destruct (resolve _ _) as [host|e]; [|now split].
  destruct (truthy host); [destruct (URL_new path host)|]; now split.
Qed.

(** The loop: the stages are run in order up to the first one on which the
    host resolver throws. *)
Lemma setup_loop_run chainId resolve path (configs : list NodeConfig) (s : St) :
  let loop := for_of configs (setupStage URL_new post chainId resolve path) s in
  final loop = s /\
  completion loop = match aborted resolve configs with
                    | None => Normal tt
                    | Some e => Throw e
                    end /\
  events loop =
  concat ((fun config => events (setupStage URL_new post chainId resolve path config s))
            <$> processed resolve configs).
Proof.
  cbn zeta. induction configs as [|config rest (IHf & IHc & IHe)]; [now cbn|].
  rewrite run_for_of_cons, run_bind.
  destruct (setupStage_settles chainId resolve path config s) as [Hf Hc].
  rewrite Hc, Hf. cbn [processed aborted].
  destruct (stage_host resolve config) as [host|e]; cbn [completion final events].
  - rewrite IHf, IHc, IHe. cbn [fmap list_fmap concat]. auto.
  - repeat split. revert Hc. rewrite setupStage_run. unfold stage_host.
    destruct (nc_services config) as [|first others]; [discriminate|].
    cbv zeta. destruct (resolve _ _) as [host|e']; [|reflexivity].
    destruct (truthy host); [destruct (URL_new path host)|]; discriminate.
Qed.



(** On a chain the Monitoring Agent does not know, the default resolver
    logs the miss and answers [undefined]; the broadcast-reporting
    callback then calls [new URL(path, undefined)] and goes on with what
    the constructor gives: its TypeError, which rejects the callback, or a
    URL, to which the report is posted. *)
Lemma defaultMonitoringResolver_miss (retrieveAgent : St -> MonitoringAgent.t)
  (chainId : string) (s : St) :
  MonitoringAgent.getRemoteMonitoringHost chainId (retrieveAgent s) = None ->
  defaultMonitoringResolver retrieveAgent chainId s =
  mkOut [EvLog Err (Text "monitoring not found")] s (Normal None).
Proof.
  intros Hmiss. unfold defaultMonitoringResolver, try_catch.
  rewrite run_bind. cbn. rewrite Hmiss. reflexivity.
Qed.

Lemma broadcastReporting_miss (retrieveAgent : St -> MonitoringAgent.t)
  (notify : string) (message : BroadcastReportingMessage) (s : St) :
  MonitoringAgent.getRemoteMonitoringHost (brm_chainId message) (retrieveAgent s)
    = None ->
  let o := installedBroadcastReporting URL_new post retrieveAgent notify None
             message s in
  match URL_new notify None with
  | Throw e =>
      completion o = Throw e /\
      events o = [EvLog Err (Text "monitoring not found")]
  | Normal url =>
      completion o = post url (json_of_BroadcastReportingMessage message) /\
      events o = [EvLog Err (Text "monitoring not found");
                  EvPost url (json_of_BroadcastReportingMessage message)]
  end.
Proof.
  intros Hmiss. cbn zeta.
  unfold installedBroadcastReporting, broadcastReportingCallback.
  cbn [default brc_message brc_path brc_monitoringResolver].
  rewrite run_bind, (defaultMonitoringResolver_miss _ _ _ Hmiss).
  cbn [completion final events]. rewrite run_bind.
  destruct (URL_new notify None) as [url|e]; cbn; [|auto].
  destruct (post url _); cbn; auto.
Qed.

Lemma remoteServiceCallback_run (payload : RSCPayload) (s : St) :
  let p := rsc_cbPayload payload in
  let info :=
    EvLog Info (TextJson "Service callback payload: "
                  (JObj [("cbPayload", json_of_CallbackPayload p);
                         ("path", JStr (rsc_path payload))])) in
  let failed := fun e =>
    mkOut (A:=unit)
          [info; EvLog Err (Text ("Error sending data to next connector: "
                                  +:+ message e))]
          s (Throw e) in
  remoteServiceCallback URL_new post payload s =
  if truthy (cp_chainId p) then
    match rsc_hostResolver payload (cp_targetId p) (cp_meta p) with
    | Throw e => failed e
    | Normal host =>
        if truthy host then
          match URL_new (rsc_path payload) host with
          | Throw e => failed e
          | Normal url =>
              let sent :=
                [info;
                 EvLog Info (Text ("Sending data to next connector on: " +:+ url));
                 EvPost url (json_of_CallbackPayload p)] in
              match post url (json_of_CallbackPayload p) with
              | Normal _ => mkOut sent s (Normal tt)
              | Throw e =>
                  mkOut (sent ++ [EvLog Err (Text ("Error sending data to next connector: "
                                                   +:+ message e))])
                        s (Throw e)
              end
          end
        else
          failed (Error_new
                    ("Next connector URI not found for the following target service: "
                     +:+ cp_targetId p))
    end
  else failed (Error_new "payload.chainId is undefined").
Proof.
  unfold remoteServiceCallback. cbv zeta.
  destruct (truthy (cp_chainId _)); [|reflexivity].
  destruct (rsc_hostResolver _ _ _) as [host|e]; [|reflexivity].
  destruct (truthy host) eqn:Hh; [|eff_unfold; rewrite Hh; reflexivity].
  destruct (URL_new _ host) as [url|e] eqn:Hu;
    [|eff_unfold; rewrite Hh, Hu; reflexivity].
  eff_unfold. rewrite Hh, Hu. cbv iota beta.
  destruct (post url _) as [[]|e]; reflexivity.
Qed.

Lemma remoteServiceCallback_final (payload : RSCPayload) (s : St) :
  final (remoteServiceCallback URL_new post payload s) = s.
Proof.
  rewrite remoteServiceCallback_run. cbv zeta.
  destruct (truthy (cp_chainId _)); [|reflexivity].
  destruct (rsc_hostResolver _ _ _) as [host|e]; [|reflexivity].
  destruct (truthy host); [|reflexivity].
  destruct (URL_new _ host) as [url|e]; [|reflexivity].
  destruct (post url _); reflexivity.
Qed.

End CallbackProperties.

Section HandOff.

Variable URL_new : string -> option string -> Completion string.
Variable post : string -> JsValue -> Completion unit.


End HandOff.

(** ** Scenarios of the specification, run on the model *)

Example setup_S2 :
  posts (events (broadcastSetupCallback URL_on_origin post_ok
                   (setup_payload [stage_empty; stage_A; stage_B]) tt))
  = [("http://peer2/setup",
      JObj [("chainId", JStr "ci-1730000000000-3f2a9c1e");
            ("remoteConfigs", JObj [("services", JArr [JStr "B"])])])] /\
  logged Warn (events (broadcastSetupCallback URL_on_origin post_ok
                         (setup_payload [stage_empty; stage_A; stage_B]) tt))
  = [Text "Empty services array encountered in config";
     Text "No container address found for targetId: A"].
Proof. split; reflexivity. Qed.

(** A host resolver that throws on service A: the stage of B before it
    gets its POST, the stage of B after it is never reached, and the
    callback rejects with the error of the resolver.  No error is logged. *)
Example setup_resolver_throws :
  let o := broadcastSetupCallback URL_on_origin post_ok
             (mkBSCPayload (setup_message [stage_B; stage_A; stage_B])
                resolver_fails_on_A "/setup") tt in
  posts (events o)
  = [("http://peer2/setup",
      JObj [("chainId", JStr "ci-1730000000000-3f2a9c1e");
            ("remoteConfigs", JObj [("services", JArr [JStr "B"])])])] /\
  logged Err (events o) = [] /\
  completion o = Throw (Error_new "registry unreachable").
Proof. cbn zeta. repeat split; reflexivity. Qed.





(** C7 at a chain with no registered monitoring host, notify path
    [/notify]: the default resolver logs "monitoring not found" and returns
    undefined; [new URL("/notify", undefined)] throws, the callback rejects
    with that TypeError and no POST is made. *)
Theorem monitoring_miss_rejects :
  let o := installedBroadcastReporting (St:=MonitoringAgent.t) URL_on_origin
             post_ok (fun agent => agent) "/notify" None
             (mkBroadcastReportingMessage "ci-1730000000000-3f2a9c1e" [])
             (∅ : MonitoringAgent.t) in
  events o = [EvLog Err (Text "monitoring not found")] /\
  posts (events o) = [] /\
  completion o = Throw (TypeError_new "Invalid URL").
Proof. cbn zeta. repeat split; reflexivity. Qed.

Lemma unknown_signal_witness :
  (signal bogus_payload ∉ NodeSignal.all) /\
  handleRequest execute_nothing sendData_S3 bogus_payload (world_S2 broadcast_ok)
  = mkOut [EvLog Warn (Text "Unknown signal received: bogus")]
          (world_S2 broadcast_ok) (Normal None).
Proof.
  assert (H : signal bogus_payload ∉ NodeSignal.all).
  { apply (bool_decide_unpack _). vm_compute. exact I. }
  split; [exact H|].
  apply (handleRequest_unknown_signal execute_nothing sendData_S3
           (world_S2 broadcast_ok) bogus_payload H).
Defined.

Lemma delete_pause_witness :
  let del := mkSupervisorPayload NodeSignal.NODE_DELETE None "ghost" 0 JUndefined in
  let pause := mkSupervisorPayload NodeSignal.NODE_PAUSE None "n1" 0 JUndefined in
  nodes (sup world_paused) !! "ghost" = None /\
  nodes (sup world_paused) !! "n1" = Some node_paused /\
  Node.status node_paused = NodeStatus.PAUSED /\
  handleRequest execute_nothing sendData_S3 del world_paused
  = mkOut [EvLog Warn (Text "Node ghost not found.")] world_paused (Normal None) /\
  final (handleRequest execute_nothing sendData_S3 pause world_paused) = world_paused.
Proof.
  cbn zeta.
  assert (H1 : nodes (sup world_paused) !! "ghost" = None) by reflexivity.
  assert (H2 : nodes (sup world_paused) !! "n1" = Some node_paused) by reflexivity.
  split; [exact H1|]. split; [exact H2|]. split; [reflexivity|]. split.
  - apply (delete_unknown_pause_paused_noop execute_nothing sendData_S3 world_paused
             (mkSupervisorPayload NodeSignal.NODE_DELETE None "ghost" 0 JUndefined));
      [reflexivity|exact H1].
  - apply (delete_unknown_pause_paused_noop execute_nothing sendData_S3 world_paused
             (mkSupervisorPayload NodeSignal.NODE_PAUSE None "n1" 0 JUndefined))
      with (node := node_paused); [reflexivity|exact H2|reflexivity].
Defined.



Example send_data_S3_logged :
  logged Err
    (events (handleRequest execute_nothing sendData_S3
               (mkSupervisorPayload NodeSignal.NODE_SEND_DATA None "A" 0 JUndefined)
               world_S3))
  = [Text "Error sending data to next connector: Request failed with status code 500";
     Text "Node A execution failed: Request failed with status code 500"].
Proof. reflexivity. Qed.

(** ** Bookkeeping signals and the other entry points *)

Lemma deleteNode_run (i : string) (w : World) :
  deleteNode i w =
  match nodes (sup w) !! i with
  | Some _ =>
      mkOut [EvLog Info (Text ("Node " +:+ i +:+ " deleted."))]
            (on_monitoring (NodeMonitoring.removeNode i) (on_nodes (delete i) w))
            (Normal tt)
  | None =>
      mkOut [EvLog Warn (Text ("Node " +:+ i +:+ " not found."))] w (Normal tt)
  end.
Proof.
  unfold deleteNode. rewrite run_bind. cbn [get completion final events app].
  destruct (nodes (sup w) !! i) as [node|] eqn:Hn.
  - destruct (decide (is_Some (Some node))) as [_|Hno]; [reflexivity|].
    exfalso. apply Hno. eauto.
  - destruct (decide (is_Some None)) as [[? ?]|_]; [discriminate|reflexivity].
Qed.

Lemma pauseNode_run (i : string) (w : World) :
  pauseNode i w =
  match nodes (sup w) !! i with
  | Some node =>
      match Node.updateStatus NodeStatus.PAUSED node with
      | Normal node' =>
          mkOut [EvLog Info (Text ("Node " +:+ i +:+ " paused."))]
                (on_nodes <[i := node']> w) (Normal tt)
      | Throw e => mkOut [] w (Throw e)
      end
  | None =>
      mkOut [EvLog Warn (Text ("Node " +:+ i +:+ " not found."))] w (Normal tt)
  end.
Proof.
  unfold pauseNode. rewrite run_bind. cbn [get completion final events app].
  destruct (nodes (sup w) !! i) as [node|]; [|reflexivity].
  rewrite run_bind. unfold settle. cbn [completion final events app].
  destruct (Node.updateStatus NodeStatus.PAUSED node); reflexivity.
Qed.

Lemma delayNode_run (i : string) (d : Z) (w : World) :
  delayNode i d w =
  match nodes (sup w) !! i with
  | Some node =>
      mkOut [EvLog Info (Text ("Node " +:+ i +:+ " delayed by "
                               +:+ Number_toString d +:+ " ms."))]
            (on_nodes <[i := Node.setDelay d node]> w) (Normal tt)
  | None =>
      mkOut [EvLog Warn (Text ("Node " +:+ i +:+ " not found."))] w (Normal tt)
  end.
Proof.
  unfold delayNode. rewrite run_bind. cbn [get completion final events app].
  destruct (nodes (sup w) !! i); reflexivity.
Qed.

Lemma elem_of_addressed (s : string) :
  s ∈ addressed_signals ->
  s = NodeSignal.NODE_DELETE \/ s = NodeSignal.NODE_PAUSE \/
  s = NodeSignal.NODE_DELAY \/ s = NodeSignal.NODE_RUN \/
  s = NodeSignal.NODE_SEND_DATA.
Proof.
  unfold addressed_signals. rewrite !elem_of_cons, elem_of_nil. tauto.
Qed.

Lemma elem_of_bookkeeping (s : string) :
  s ∈ bookkeeping_signals ->
  s = NodeSignal.NODE_DELETE \/ s = NodeSignal.NODE_PAUSE \/
  s = NodeSignal.NODE_DELAY.
Proof.
  unfold bookkeeping_signals. rewrite !elem_of_cons, elem_of_nil. tauto.
Qed.

Section Bookkeeping.

Variable Node_execute : Node.t -> PipelineData -> Eff World unit.
Variable Node_sendData : Node.t -> UserEff World unit.

Local Abbreviation handle := (handleRequest Node_execute Node_sendData).

Lemma handle_delete payload w :
  signal payload = NodeSignal.NODE_DELETE ->
  handle payload w = (deleteNode (id payload) ;; mret None) w.
Proof. intros Hs. unfold handleRequest. now rewrite Hs. Qed.

Lemma handle_pause payload w :
  signal payload = NodeSignal.NODE_PAUSE ->
  handle payload w = (pauseNode (id payload) ;; mret None) w.
Proof. intros Hs. unfold handleRequest. now rewrite Hs. Qed.

Lemma handle_delay payload w :
  signal payload = NodeSignal.NODE_DELAY ->
  handle payload w = (delayNode (id payload) (delay payload) ;; mret None) w.
Proof. intros Hs. unfold handleRequest. now rewrite Hs. Qed.

Lemma handle_run payload w :
  signal payload = NodeSignal.NODE_RUN ->
  handle payload w =
  (runNode Node_execute (id payload) (data payload) ;; mret None) w.
Proof. intros Hs. unfold handleRequest. now rewrite Hs. Qed.

Lemma handle_send payload w :
  signal payload = NodeSignal.NODE_SEND_DATA ->
  handle payload w = (sendNodeData Node_sendData (id payload) ;; mret None) w.
Proof. intros Hs. unfold handleRequest. now rewrite Hs. Qed.

Lemma handle_create payload w :
  signal payload = NodeSignal.NODE_CREATE ->
  handle payload w =
  (nodeId ← createNode (params payload); mret (Some nodeId)) w.
Proof. intros Hs. unfold handleRequest. now rewrite Hs. Qed.

(** X1.  Whatever the signal that addresses a Node (delete, pause, delay,
    run, send data), when [payload.id] is not in the nodes map the request
    resolves with [undefined], the process state is exactly what it was, and
    the only thing done is the warning "Node <id> not found."  In
    particular the methods of the Node class are not called. *)
Theorem unknown_node_warns_only (w : World) (payload : SupervisorPayload) :
  signal payload ∈ addressed_signals ->
  nodes (sup w) !! id payload = None ->
  handle payload w =
  mkOut [EvLog Warn (Text ("Node " +:+ id payload +:+ " not found."))]
        w (Normal None).
Proof.
  intros Hs Hn. apply elem_of_addressed in Hs as [Hs|[Hs|[Hs|[Hs|Hs]]]].
  - rewrite (handle_delete _ _ Hs), run_bind, deleteNode_run, Hn. reflexivity.
  - rewrite (handle_pause _ _ Hs), run_bind, pauseNode_run, Hn. reflexivity.
  - rewrite (handle_delay _ _ Hs), run_bind, delayNode_run, Hn. reflexivity.
  - rewrite (handle_run _ _ Hs), run_bind. unfold runNode. rewrite run_bind.
    cbn [get completion final events app]. rewrite Hn. reflexivity.
  - rewrite (handle_send _ _ Hs), run_bind. unfold sendNodeData. rewrite run_bind.
    cbn [get completion final events app]. rewrite Hn. reflexivity.
Qed.

(** X2.  NODE_CREATE, in a process where every registered id was issued
    earlier: the request resolves with the id of the new Node; that id was
    not in the nodes map; the map is the old one with the new Node added
    under its own id, with [payload.params] as dependencies (none when
    absent); the Node is added to the monitoring when there is one;
    exactly one line is logged; and every registered id is still an issued
    one afterwards. *)
Theorem create_registers_new_node (w : World) (payload : SupervisorPayload) :
  signal payload = NodeSignal.NODE_CREATE ->
  dom (nodes (sup w)) ⊆ issued w ->
  let o := handle payload w in
  exists i,
    let node := Node.create i (default [] (params payload)) in
    completion o = Normal (Some i) /\
    nodes (sup w) !! i = None /\
    Node.id node = i /\
    nodes (sup (final o)) = <[i := node]> (nodes (sup w)) /\
    size (nodes (sup (final o))) = S (size (nodes (sup w))) /\
    nodeMonitoring (sup (final o))
      = NodeMonitoring.addNode node <$> nodeMonitoring (sup w) /\
    events o = [EvLog Info (Text ("Node " +:+ i +:+ " created."))] /\
    dom (nodes (sup (final o))) ⊆ issued (final o).
Proof.
  intros Hs Hinv. cbn zeta. exists (fresh (issued w)).
  rewrite (handle_create _ _ Hs), run_bind, createNode_run.
  cbn [completion final events app]. rewrite !run_mret.
  cbn [completion final events app sup nodes nodeMonitoring issued].
  assert (Hfresh : nodes (sup w) !! fresh (issued w) = None).
  { apply not_elem_of_dom. intros Hin. apply (is_fresh (issued w)), Hinv, Hin. }
  split; [reflexivity|]. split; [exact Hfresh|]. split; [reflexivity|].
  split; [reflexivity|]. split; [now apply map_size_insert_None|].
  split; [reflexivity|]. split; [reflexivity|].
  rewrite dom_insert_L. apply union_mono_l, Hinv.
Qed.

(** X3.  NODE_DELETE on a registered id removes that entry and nothing
    else: the id is no longer in the map, every other entry is as before,
    the map has one entry less, the id leaves the monitoring when there is
    one, "Node <id> deleted." is logged and the request resolves. *)
Theorem delete_removes_only_that_node (w : World) (payload : SupervisorPayload)
  (node : Node.t) :
  signal payload = NodeSignal.NODE_DELETE ->
  nodes (sup w) !! id payload = Some node ->
  let o := handle payload w in
  completion o = Normal None /\
  nodes (sup (final o)) = delete (id payload) (nodes (sup w)) /\
  nodes (sup (final o)) !! id payload = None /\
  (forall j, j <> id payload -> nodes (sup (final o)) !! j = nodes (sup w) !! j) /\
  S (size (nodes (sup (final o)))) = size (nodes (sup w)) /\
  nodeMonitoring (sup (final o))
    = NodeMonitoring.removeNode (id payload) <$> nodeMonitoring (sup w) /\
  events o = [EvLog Info (Text ("Node " +:+ id payload +:+ " deleted."))].
Proof.
  intros Hs Hn. cbn zeta.
  rewrite (handle_delete _ _ Hs), run_bind, deleteNode_run, Hn. eff_steps.
  cbn [sup nodes nodeMonitoring on_monitoring on_nodes on_sup].
  repeat split; auto.
  - apply lookup_delete_eq.
  - intros j Hj. now apply lookup_delete_ne.
  - rewrite map_size_delete, Hn.
    assert (size (nodes (sup w)) <> 0%nat).
    { intros H0%map_size_empty_inv. rewrite H0 in Hn. discriminate. }
    lia.
Qed.

(** X4.  Creating a Node and then deleting the id that NODE_CREATE
    returned gives back the nodes map one started from (in a process where
    every registered id was issued earlier). *)
Theorem create_then_delete_restores_nodes (w : World)
  (payload : SupervisorPayload) (i : string) :
  dom (nodes (sup w)) ⊆ issued w ->
  completion (handle (with_signal NodeSignal.NODE_CREATE payload) w)
    = Normal (Some i) ->
  let w1 := final (handle (with_signal NodeSignal.NODE_CREATE payload) w) in
  let o := handle (with_id i (with_signal NodeSignal.NODE_DELETE payload)) w1 in
  completion o = Normal None /\
  nodes (sup (final o)) = nodes (sup w) /\
  getNodes (sup (final o)) !! i = None.
Proof.
  intros Hinv Hc. cbn zeta.
  assert (Hfresh : nodes (sup w) !! fresh (issued w) = None).
  { apply not_elem_of_dom. intros Hin. apply (is_fresh (issued w)), Hinv, Hin. }
  revert Hc.
  rewrite (handle_create (with_signal NodeSignal.NODE_CREATE payload) w eq_refl).
  rewrite run_bind, createNode_run. cbn [completion final events app].
  rewrite !run_mret. cbn [completion final events app].
  intros [= <-].
  rewrite (handle_delete
             (with_id _ (with_signal NodeSignal.NODE_DELETE payload)) _ eq_refl).
  rewrite run_bind, deleteNode_run.
  cbn [id with_id with_signal sup nodes]. rewrite lookup_insert_eq. eff_steps.
  cbn [sup nodes on_monitoring on_nodes on_sup getNodes].
  rewrite delete_insert_id by exact Hfresh. auto.
Qed.

(** X5.  NODE_DELETE is idempotent: sent twice with the same id, the
    second request finds no Node, only warns, and leaves the state the
    first one produced. *)
Theorem delete_twice (w : World) (payload : SupervisorPayload) :
  signal payload = NodeSignal.NODE_DELETE ->
  let w1 := final (handle payload w) in
  handle payload w1 =
  mkOut [EvLog Warn (Text ("Node " +:+ id payload +:+ " not found."))]
        w1 (Normal None).
Proof.
  intros Hs. cbn zeta.
  assert (Hgone : nodes (sup (final (handle payload w))) !! id payload = None).
  { rewrite (handle_delete _ _ Hs), run_bind, deleteNode_run.
    destruct (nodes (sup w) !! id payload) eqn:Hn; eff_steps; [|exact Hn].
    cbn. apply lookup_delete_eq. }
  rewrite (handle_delete _ (final _) Hs), run_bind, deleteNode_run, Hgone.
  reflexivity.
Qed.

(** X6.  A delete, pause or delay request addressed to one Node never
    touches another: every other entry of the nodes map is as before,
    whether the request resolves or rejects, and the supervisor's uid,
    chain config and broadcast function, the clock and the issued ids are
    as before.  A delete request makes no HTTP call and no broadcast.
    (Nothing is said of the HTTP calls of a pause: the report of the
    status change is made by the Node, outside the supervisor.) *)
Theorem bookkeeping_frame (w : World) (payload : SupervisorPayload) :
  signal payload ∈ bookkeeping_signals ->
  let o := handle payload w in
  (forall j, j <> id payload -> nodes (sup (final o)) !! j = nodes (sup w) !! j) /\
  uid (sup (final o)) = uid (sup w) /\
  chainConfig (sup (final o)) = chainConfig (sup w) /\
  broadcastFunction (sup (final o)) = broadcastFunction (sup w) /\
  issued (final o) = issued w /\
  Date_now (final o) = Date_now w /\
  (signal payload = NodeSignal.NODE_DELETE ->
   posts (events o) = [] /\ broadcasts (events o) = []).
Proof.
  intros Hs. cbn zeta. apply elem_of_bookkeeping in Hs as [Hs|[Hs|Hs]].
  - rewrite (handle_delete _ _ Hs), run_bind, deleteNode_run.
    destruct (nodes (sup w) !! id payload); eff_steps; cbn; repeat split; auto.
    intros j Hj. now apply lookup_delete_ne.
  - rewrite (handle_pause _ _ Hs), run_bind, pauseNode_run.
    destruct (nodes (sup w) !! id payload) as [node|];
      [destruct (Node.updateStatus _ _)|]; eff_steps; cbn; repeat split; auto;
      try (rewrite Hs; discriminate).
    intros j Hj. now apply lookup_insert_ne.
  - rewrite (handle_delay _ _ Hs), run_bind, delayNode_run.
    destruct (nodes (sup w) !! id payload); eff_steps; cbn; repeat split; auto;
      try (rewrite Hs; discriminate).
    intros j Hj. now apply lookup_insert_ne.
Qed.

(** X7.  NODE_RUN on a registered Node is [node.execute(data)] and nothing
    more: same trace, same final state, and the request rejects with the
    error of [execute] when it raises (it is not caught, unlike the error
    of [sendData]) and resolves with [undefined] otherwise. *)
Theorem run_settles_as_execute (w : World) (payload : SupervisorPayload)
  (node : Node.t) :
  signal payload = NodeSignal.NODE_RUN ->
  nodes (sup w) !! id payload = Some node ->
  let o := handle payload w in
  let x := Node_execute node (data payload) w in
  events o = events x /\
  final o = final x /\
  completion o = match completion x with
                 | Normal _ => Normal None
                 | Throw e => Throw e
                 end.
Proof.
  intros Hs Hn. cbn zeta. rewrite (handle_run _ _ Hs), run_bind.
  unfold runNode. rewrite run_bind. cbn [get completion final events app].
  rewrite Hn. destruct (Node_execute node (data payload) w) as [ev w' [[]|e]];
    cbn; rewrite ?app_nil_r; auto.
Qed.

End Bookkeeping.

(** X8.  [addProcessors]: for an id that is not registered, one warning and
    nothing else; for a registered Node, [node.addPipeline(processors)] is
    called and "Processors added to Node <id>." is logged after it, unless
    [addPipeline] raises, in which case nothing is logged and the error
    goes to the caller. *)
Theorem addProcessors_outcomes
  (Node_addPipeline : Node.t -> list Processor -> Eff World unit)
  (nodeId : string) (processors : list Processor) (w : World) :
  let o := addProcessors Node_addPipeline nodeId processors w in
  match nodes (sup w) !! nodeId with
  | None =>
      o = mkOut [EvLog Warn (Text ("Node " +:+ nodeId +:+ " not found."))]
                w (Normal tt)
  | Some node =>
      let x := Node_addPipeline node processors w in
      final o = final x /\
      match completion x with
      | Normal _ =>
          completion o = Normal tt /\
          events o =
          events x ++ [EvLog Info (Text ("Processors added to Node "
                                         +:+ nodeId +:+ "."))]
      | Throw e => completion o = Throw e /\ events o = events x
      end
  end.
Proof.
  cbn zeta. unfold addProcessors. rewrite run_bind.
  cbn [get completion final events app].
  destruct (nodes (sup w) !! nodeId) as [node|]; [|reflexivity].
  rewrite run_bind.
  destruct (Node_addPipeline node processors w) as [ev w' [[]|e]]; cbn; auto.
Qed.

(** ** The invariant on identifiers *)

Lemma startChain_keeps_issued (w : World) :
  dom (nodes (sup w)) ⊆ issued w ->
  dom (nodes (sup (final (startChain w)))) ⊆ issued (final (startChain w)).
Proof.
  intros Hinv. unfold startChain. rewrite run_bind.
  cbn [get completion final events app].
  fold (locals w). fold (remotes w). rewrite run_bind.
  destruct (createNodes_run (locals w) w Hinv) as (Hc & _ & Hd & _).
  set (o1 := for_of (locals w) _ w) in *.
  rewrite Hc. cbn [completion final events].
  destruct (decide (0 < length (remotes w))%nat).
  - rewrite broadcastNodeCreationSignal_run. exact Hd.
  - rewrite run_mret. exact Hd.
Qed.

(** X9.  "Every registered Node id is an id that was issued" is an
    invariant of the supervisor: it holds in a new process, and it is kept
    by [startChain] and by every request that does not run the pipeline of
    a Node (create, delete, pause, delay, and unknown signals). *)
Theorem registered_ids_are_issued
  (Node_execute : Node.t -> PipelineData -> Eff World unit)
  (Node_sendData : Node.t -> UserEff World unit)
  (w : World) (payload : SupervisorPayload) :
  dom (nodes (sup w)) ⊆ issued w ->
  signal payload <> NodeSignal.NODE_RUN ->
  signal payload <> NodeSignal.NODE_SEND_DATA ->
  dom (nodes NodeSupervisor_new) ⊆ (∅ : gset string) /\
  dom (nodes (sup (final (startChain w)))) ⊆ issued (final (startChain w)) /\
  dom (nodes (sup (final (handleRequest Node_execute Node_sendData payload w))))
    ⊆ issued (final (handleRequest Node_execute Node_sendData payload w)).
Proof.
  intros Hinv Hrun Hsend.
  split; [cbn; now rewrite dom_empty_L|]. split; [now apply startChain_keeps_issued|].
  unfold handleRequest.
  destruct (String.eqb_spec (signal payload) NodeSignal.NODE_CREATE) as [_|_].
  { rewrite run_bind, createNode_run. eff_steps. cbn.
    rewrite dom_insert_L. apply union_mono_l, Hinv. }
  destruct (String.eqb_spec (signal payload) NodeSignal.NODE_DELETE) as [_|_].
  { rewrite run_bind, deleteNode_run.
    destruct (nodes (sup w) !! id payload); eff_steps; cbn; [|exact Hinv].
    rewrite dom_delete_L. intros x [Hx _]%elem_of_difference. now apply Hinv. }
  destruct (String.eqb_spec (signal payload) NodeSignal.NODE_PAUSE) as [_|_].
  { rewrite run_bind, pauseNode_run.
    destruct (nodes (sup w) !! id payload) as [node|] eqn:Hn;
      [destruct (Node.updateStatus _ _)|]; eff_steps; cbn; try exact Hinv.
    rewrite dom_insert_L. apply elem_of_dom_2 in Hn.
    apply union_least; [now apply singleton_subseteq_l, Hinv|exact Hinv]. }
  destruct (String.eqb_spec (signal payload) NodeSignal.NODE_DELAY) as [_|_].
  { rewrite run_bind, delayNode_run.
    destruct (nodes (sup w) !! id payload) as [node|] eqn:Hn;
      eff_steps; cbn; try exact Hinv.
    rewrite dom_insert_L. apply elem_of_dom_2 in Hn.
    apply union_least; [now apply singleton_subseteq_l, Hinv|exact Hinv]. }
  destruct (String.eqb_spec (signal payload) NodeSignal.NODE_RUN) as [?|_];
    [contradiction|].
  destruct (String.eqb_spec (signal payload) NodeSignal.NODE_SEND_DATA) as [?|_];
    [contradiction|].
  exact Hinv.
Qed.

(** ** A chainId determines its time and its suffix *)

Lemma length_append (a b : string) :
  String.length (a +:+ b) = (String.length a + String.length b)%nat.
Proof.
  induction a as [|c a IH]; rewrite ?append_empty, ?append_String; cbn; auto.
Qed.

Lemma append_inj_tail (a a' b b' : string) :
  a +:+ b = a' +:+ b' -> String.length b = String.length b' ->
  a = a' /\ b = b'.
Proof.
  revert a'. induction a as [|c a IH]; intros [|c' a'];
    rewrite ?append_empty, ?append_String; intros Heq Hlen.
  - auto.
  - apply (f_equal String.length) in Heq. cbn in Heq.
    rewrite length_append in Heq. lia.
  - apply (f_equal String.length) in Heq. cbn in Heq.
    rewrite length_append in Heq. lia.
  - injection Heq as -> Heq. destruct (IH _ Heq Hlen) as [-> ->]. auto.
Qed.

Lemma Number_toString_inj (n m : Z) :
  Number_toString n = Number_toString m -> n = m.
Proof.
  unfold Number_toString. intros H.
  assert (Hnil : forall z, Z.to_int z <> Decimal.Pos Decimal.Nil /\
                           Z.to_int z <> Decimal.Neg Decimal.Nil).
  { intros [|p|p]; cbn; split; try discriminate;
      intros [= Hp]; now apply DecimalPos.Unsigned.to_uint_nonnil in Hp. }
  apply DecimalZ.to_int_inj.
  destruct (Hnil n) as [Hn1 Hn2], (Hnil m) as [Hm1 Hm2].
  pose proof (NilZero.isi _ Hn1 Hn2) as Hin.
  pose proof (NilZero.isi _ Hm1 Hm2) as Him.
  rewrite H, Him in Hin. now injection Hin.
Qed.

(** X10.  For one initiator, the chainId of a broadcast determines the
    time and the UUID prefix it was built from: two broadcasts of the same
    uid that carry the same chainId were made at the same millisecond with
    UUIDs that share their first eight characters.  (So chainIds differ as
    soon as the clock or those eight characters differ.) *)
Theorem chainId_determines_time_and_suffix (w1 w2 : World) (m1 m2 : BrodcastMessage) :
  uid (sup w1) = uid (sup w2) ->
  is_uuid (randomUUID w1) = true ->
  is_uuid (randomUUID w2) = true ->
  broadcasts (events (broadcastNodeCreationSignal w1)) = [m1] ->
  broadcasts (events (broadcastNodeCreationSignal w2)) = [m2] ->
  chain_id (bm_chain m1) = chain_id (bm_chain m2) ->
  Date_now w1 = Date_now w2 /\
  slice0 8 (randomUUID w1) = slice0 8 (randomUUID w2).
Proof.
  intros Hu [Hl1 _]%uuid_slice [Hl2 _]%uuid_slice.
  rewrite !broadcastNodeCreationSignal_run.
  assert (Hb : forall w, broadcasts [EvBroadcast (creation_message w);
                 match broadcastFunction (sup w) (creation_message w) with
                 | Normal _ =>
                     EvLog Info (Text ("Node creation signal broadcasted with chainId: "
                                       +:+ chainId_of w))
                 | Throw e =>
                     EvLog Err (Text ("Failed to broadcast node creation signal: "
                                      +:+ Error_toString e))
                 end] = [creation_message w]).
  { intros w. cbn. destruct (broadcastFunction _ _); reflexivity. }
  cbn [events]. rewrite !Hb. intros [= <-] [= <-]. cbn [creation_message bm_chain chain_id].
  unfold chainId_of. rewrite Hu. intros Heq.
  apply String.app_inj in Heq. rewrite !append_String, !append_empty in Heq.
  injection Heq as Heq.
  apply append_inj_tail in Heq as [Hn Hs]; [|cbn; now rewrite Hl1, Hl2].
  split; [now apply Number_toString_inj|now injection Hs].
Qed.

(** ** More on the default callbacks *)

Section MoreCallbacks.

Context {St : Type}.
Variable URL_new : string -> option string -> Completion string.
Variable post : string -> JsValue -> Completion unit.
Variable retrieveAgent : St -> MonitoringAgent.t.

(** X11.  The default monitoring resolver never rejects and never changes
    anything: it answers the host the Monitoring Agent has for the chain,
    or [undefined] when it has none; it writes exactly one log line, an
    error line exactly when there is no host; it makes no HTTP call. *)
Theorem defaultMonitoringResolver_total (chainId : string) (s : St) :
  let o := defaultMonitoringResolver retrieveAgent chainId s in
  completion o = Normal (retrieveAgent s !! chainId) /\
  final o = s /\
  length (events o) = 1%nat /\
  posts (events o) = [] /\
  (logged Err (events o) = [] <-> is_Some (retrieveAgent s !! chainId)).
Proof.
  cbn zeta. unfold defaultMonitoringResolver, try_catch. rewrite run_bind.
  cbn [get completion final events app]. unfold MonitoringAgent.getRemoteMonitoringHost.
  destruct (retrieveAgent s !! chainId) as [host|]; cbn.
  - repeat split; eauto.
  - repeat split; auto; [discriminate|]. intros [? [=]].
Qed.

Lemma defaultMonitoringResolver_hit (chainId host : string) (s : St) :
  retrieveAgent s !! chainId = Some host ->
  defaultMonitoringResolver retrieveAgent chainId s =
  mkOut [EvLog Info (Text ("Resolving host for monitoring: " +:+ host))]
        s (Normal (Some host)).
Proof.
  intros Hhost. unfold defaultMonitoringResolver, try_catch.
  rewrite run_bind. cbn [get completion final events app].
  unfold MonitoringAgent.getRemoteMonitoringHost. rewrite Hhost. reflexivity.
Qed.

(** X12.  With the default resolver, a report for a chain whose monitoring
    host is registered is posted exactly once, to [new URL(notify, host)],
    with the message as body; the callback settles as that POST does,
    logs no error and leaves the state alone. *)
Theorem report_posted_to_monitoring_host (notify : string)
  (message : BroadcastReportingMessage) (s : St) (host url : string) :
  retrieveAgent s !! brm_chainId message = Some host ->
  URL_new notify (Some host) = Normal url ->
  let o := installedBroadcastReporting URL_new post retrieveAgent notify None
             message s in
  posts (events o) = [(url, json_of_BroadcastReportingMessage message)] /\
  completion o = post url (json_of_BroadcastReportingMessage message) /\
  logged Err (events o) = [] /\
  final o = s.
Proof.
  intros Hhost Hurl. cbn zeta.
  unfold installedBroadcastReporting, broadcastReportingCallback.
  cbn [default brc_message brc_path brc_monitoringResolver].
  rewrite run_bind, (defaultMonitoringResolver_hit _ _ _ Hhost).
  cbn [completion final events]. rewrite run_bind. unfold settle at 1 2 3.
  cbn [completion final events]. rewrite Hurl.
  unfold mbind, Eff_bind, bind, emit, settle. cbn.
  destruct (post url _); cbn; auto.
Qed.

Lemma setupStage_one_event chainId resolve path config (s : St) host :
  stage_host resolve config = Normal host ->
  length (events (setupStage URL_new post chainId resolve path config s)) = 1%nat /\
  posts (events (setupStage URL_new post chainId resolve path config s))
  = option_list (setup_request URL_new chainId resolve path config).
Proof.
  rewrite setupStage_run. unfold stage_host, setup_request.
  destruct (nc_services config) as [|first others]; [now cbn|].
  cbv zeta. intros ->.
  destruct (truthy host); [|now cbn].
  destruct (URL_new path host); now cbn.
Qed.

Lemma processed_returns resolve (configs : list NodeConfig) config :
  config ∈ processed resolve configs ->
  exists host, stage_host resolve config = Normal host.
Proof.
  induction configs as [|c rest IH]; cbn [processed]; [intros H; inversion H|].
  destruct (stage_host resolve c) as [host|e] eqn:Hc; [|intros H; inversion H].
  intros [->|Hin]%elem_of_cons; eauto.
Qed.

Lemma processed_length resolve (configs : list NodeConfig) :
  (length (processed resolve configs) <= length configs)%nat.
Proof.
  induction configs as [|c rest IH]; cbn [processed length]; [lia|].
  destruct (stage_host resolve c); cbn [length]; lia.
Qed.

Lemma posts_of_stages (f : NodeConfig -> list Event)
  (g : NodeConfig -> option (string * JsValue)) (l : list NodeConfig) :
  (forall c, c ∈ l -> length (f c) = 1%nat /\ posts (f c) = option_list (g c)) ->
  posts (concat (f <$> l)) = omap g l /\
  length (concat (f <$> l)) = length l /\
  (length (omap g l) <= length l)%nat.
Proof.
  induction l as [|c l IH]; intros Hf; [now cbn|].
  destruct (Hf c) as [H1 Hp]; [left|].
  destruct IH as (IHp & IHl & IHo); [intros c' Hc'; apply Hf; now right|].
  cbn [fmap list_fmap concat length].
  change (omap g (c :: l))
    with (match g c with Some y => y :: omap g l | None => omap g l end).
  unfold posts in *. rewrite omap_app, length_app, IHp, Hp, H1, IHl.
  destruct (g c); simpl; repeat split; auto; lia.
Qed.

(** X13.  The broadcast-setup callback goes through the stages in order
    until the host resolver throws, if it does: it then rejects with that
    error and the stages from that one on leave nothing in the trace;
    otherwise it resolves and gets through all of them.  The POSTs are
    those of the stages it got through that have a first service with a
    resolved host and a valid URL, in the order of the chain config, so at
    most one per stage; each of these stages leaves exactly one entry in
    the trace (its POST, its warning or its error), after the one line
    that logs the message. *)
Theorem setup_posts_follow_config (payload : BSCPayload) (s : St) :
  let o := broadcastSetupCallback URL_new post payload s in
  let configs := bsm_chain_config (bsc_message payload) in
  let resolve := bsc_hostResolver payload in
  let done := processed resolve configs in
  posts (events o)
  = omap (setup_request URL_new (bsm_chain_id (bsc_message payload))
            resolve (bsc_path payload)) done /\
  (length (posts (events o)) <= length done)%nat /\
  (length done <= length configs)%nat /\
  length (events o) = S (length done) /\
  completion o = match aborted resolve configs with
                 | None => Normal tt
                 | Some e => Throw e
                 end /\
  (aborted resolve configs = None -> done = configs) /\
  final o = s.
Proof.
  cbn zeta. unfold broadcastSetupCallback. rewrite run_bind.
  cbn [Logger_info emit completion final events].
  destruct (setup_loop_run URL_new post (bsm_chain_id (bsc_message payload))
              (bsc_hostResolver payload) (bsc_path payload)
              (bsm_chain_config (bsc_message payload)) s) as (Hf & Hc & He).
  rewrite He, Hc, Hf.
  destruct (posts_of_stages
              (fun x => events (setupStage URL_new post (bsm_chain_id (bsc_message payload))
                                  (bsc_hostResolver payload) (bsc_path payload) x s))
              (setup_request URL_new (bsm_chain_id (bsc_message payload))
                 (bsc_hostResolver payload) (bsc_path payload))
              (processed (bsc_hostResolver payload)
                 (bsm_chain_config (bsc_message payload))))
    as (Hp & Hl & Ho).
  { intros c [host Hh]%processed_returns. eapply setupStage_one_event, Hh. }
  change (posts ([?e] ++ ?t)) with (posts t).
  rewrite Hp. cbn [app length]. rewrite Hl.
  split; [reflexivity|]. split; [exact Ho|]. split; [apply processed_length|].
  split; [reflexivity|]. split.
  - destruct (aborted _ _); reflexivity.
  - split; [|destruct (aborted _ _); reflexivity].
    clear. induction (bsm_chain_config (bsc_message payload)) as [|c l IH];
      [reflexivity|].
    cbn [aborted processed]. destruct (stage_host _ c); [|discriminate].
    intros Ha. now rewrite IH.
Qed.

(** X14.  The remote-service callback makes at most one POST and never
    changes the state.  When it resolves, the payload was delivered: its
    chainId was not empty, the resolver gave a host, exactly one POST was
    made, to [new URL(path, host)] with the payload as body, that POST
    succeeded, and no error was logged. *)
Theorem remote_service_success_means_delivered (payload : RSCPayload) (s : St) :
  let o := remoteServiceCallback URL_new post payload s in
  let p := rsc_cbPayload payload in
  let resolved := rsc_hostResolver payload (cp_targetId p) (cp_meta p) in
  final o = s /\
  (length (posts (events o)) <= 1)%nat /\
  (completion o = Normal tt ->
   exists host url,
     truthy (cp_chainId p) = true /\
     resolved = Normal host /\ truthy host = true /\
     URL_new (rsc_path payload) host = Normal url /\
     posts (events o) = [(url, json_of_CallbackPayload p)] /\
     post url (json_of_CallbackPayload p) = Normal tt /\
     logged Err (events o) = []).
Proof.
  cbn zeta. split; [apply remoteServiceCallback_final|].
  rewrite remoteServiceCallback_run. cbv zeta.
  destruct (truthy (cp_chainId _)); [|split; [cbn; lia|discriminate]].
  destruct (rsc_hostResolver _ _ _) as [host|e]; [|split; [cbn; lia|discriminate]].
  destruct (truthy host) eqn:Hh; [|split; [cbn; lia|discriminate]].
  destruct (URL_new _ host) as [url|e] eqn:Hu; [|split; [cbn; lia|discriminate]].
  destruct (post url _) as [[]|e] eqn:Hp; (split; [cbn; lia|]); [|discriminate].
  intros _. exists host, url. repeat split; auto.
Qed.

End MoreCallbacks.

(** ** The properties above, on the scenarios *)

Lemma world_paused_inv : dom (nodes (sup world_paused)) ⊆ issued world_paused.
Proof. cbn. rewrite dom_singleton_L. reflexivity. Defined.

Lemma addressed_pause : NodeSignal.NODE_PAUSE ∈ addressed_signals.
Proof. apply (bool_decide_unpack _). vm_compute. exact I. Defined.

Lemma bookkeeping_pause : NodeSignal.NODE_PAUSE ∈ bookkeeping_signals.
Proof. apply (bool_decide_unpack _). vm_compute. exact I. Defined.

Lemma unknown_node_witness :
  (signal (request NodeSignal.NODE_PAUSE "ghost") ∈ addressed_signals) /\
  nodes (sup world_paused) !! "ghost" = None /\
  handleRequest execute_nothing sendData_S3 (request NodeSignal.NODE_PAUSE "ghost")
    world_paused
  = mkOut [EvLog Warn (Text "Node ghost not found.")] world_paused (Normal None).
Proof.
  split; [exact addressed_pause|]. split; [reflexivity|].
  apply (unknown_node_warns_only execute_nothing sendData_S3 world_paused
           (request NodeSignal.NODE_PAUSE "ghost") addressed_pause eq_refl).
Defined.

Lemma create_witness :
  let w := world_S2 broadcast_ok in
  let payload := mkSupervisorPayload NodeSignal.NODE_CREATE (Some ["dep"]) "" 0
                   JUndefined in
  dom (nodes (sup w)) ⊆ issued w /\
  exists i,
    completion (handleRequest execute_nothing sendData_S3 payload w)
      = Normal (Some i) /\
    nodes (sup (final (handleRequest execute_nothing sendData_S3 payload w)))
      = <[i := Node.create i ["dep"]]> (nodes (sup w)).
Proof.
  cbn zeta. split; [apply world_S2_inv|].
  destruct (create_registers_new_node execute_nothing sendData_S3
              (world_S2 broadcast_ok)
              (mkSupervisorPayload NodeSignal.NODE_CREATE (Some ["dep"]) "" 0
                 JUndefined) eq_refl (world_S2_inv _))
    as (i & Hc & _ & _ & Hn & _).
  exists i. split; [exact Hc|exact Hn].
Defined.

Lemma delete_witness :
  nodes (sup world_paused) !! "n1" = Some node_paused /\
  nodes (sup (final (handleRequest execute_nothing sendData_S3
                       (request NodeSignal.NODE_DELETE "n1") world_paused)))
  = delete "n1" (nodes (sup world_paused)).
Proof.
  split; [reflexivity|].
  apply (delete_removes_only_that_node execute_nothing sendData_S3 world_paused
           (request NodeSignal.NODE_DELETE "n1") node_paused eq_refl eq_refl).
Defined.

Lemma create_delete_witness :
  let w := world_S2 broadcast_ok in
  let i := fresh (issued w) in
  dom (nodes (sup w)) ⊆ issued w /\
  completion (handleRequest execute_nothing sendData_S3
                (with_signal NodeSignal.NODE_CREATE bogus_payload) w)
    = Normal (Some i) /\
  nodes (sup (final (handleRequest execute_nothing sendData_S3
                       (with_id i (with_signal NodeSignal.NODE_DELETE bogus_payload))
                       (final (handleRequest execute_nothing sendData_S3
                                 (with_signal NodeSignal.NODE_CREATE bogus_payload)
                                 w)))))
  = nodes (sup w).
Proof.
  cbn zeta. split; [apply world_S2_inv|]. split; [reflexivity|].
  apply (create_then_delete_restores_nodes execute_nothing sendData_S3
           (world_S2 broadcast_ok) bogus_payload
           (fresh (issued (world_S2 broadcast_ok))) (world_S2_inv _) eq_refl).
Defined.

Lemma delete_twice_witness :
  let p := request NodeSignal.NODE_DELETE "n1" in
  let w1 := final (handleRequest execute_nothing sendData_S3 p world_paused) in
  signal p = NodeSignal.NODE_DELETE /\
  handleRequest execute_nothing sendData_S3 p w1
  = mkOut [EvLog Warn (Text "Node n1 not found.")] w1 (Normal None).
Proof.
  cbn zeta. split; [reflexivity|].
  apply (delete_twice execute_nothing sendData_S3 world_paused
           (request NodeSignal.NODE_DELETE "n1") eq_refl).
Defined.

Lemma bookkeeping_frame_witness :
  let o := handleRequest execute_nothing sendData_S3
             (request NodeSignal.NODE_PAUSE "n2") world_two in
  (signal (request NodeSignal.NODE_PAUSE "n2") ∈ bookkeeping_signals) /\
  nodes (sup world_two) !! "n2" = Some node_pending /\
  nodes (sup (final o)) !! "n2"
  = Some (Node.with_status NodeStatus.PAUSED node_pending) /\
  nodes (sup (final o)) !! "A" = Some node_S3 /\
  issued (final o) = issued world_two.
Proof.
  cbn zeta. split; [exact bookkeeping_pause|].
  split; [reflexivity|]. split; [reflexivity|].
  destruct (bookkeeping_frame execute_nothing sendData_S3 world_two
              (request NodeSignal.NODE_PAUSE "n2") bookkeeping_pause)
    as (Hframe & _ & _ & _ & Hissued & _).
  split; [|exact Hissued].
  rewrite (Hframe "A"); [reflexivity|discriminate].
Defined.

Lemma run_witness :
  let p := request NodeSignal.NODE_RUN "A" in
  signal p = NodeSignal.NODE_RUN /\
  nodes (sup world_S3) !! id p = Some node_S3 /\
  completion (handleRequest execute_nothing sendData_S3 p world_S3)
  = match completion (execute_nothing node_S3 (data p) world_S3) with
    | Normal _ => Normal None
    | Throw e => Throw e
    end.
Proof.
  cbn zeta. split; [reflexivity|]. split; [reflexivity|].
  apply (run_settles_as_execute execute_nothing sendData_S3 world_S3
           (request NodeSignal.NODE_RUN "A") node_S3 eq_refl eq_refl).
Defined.

Lemma registered_ids_witness :
  let w := world_paused in
  let p := request NodeSignal.NODE_DELAY "n1" in
  dom (nodes (sup w)) ⊆ issued w /\
  signal p <> NodeSignal.NODE_RUN /\
  signal p <> NodeSignal.NODE_SEND_DATA /\
  dom (nodes (sup (final (handleRequest execute_nothing sendData_S3 p w))))
    ⊆ issued (final (handleRequest execute_nothing sendData_S3 p w)).
Proof.
  cbn zeta. split; [apply world_paused_inv|].
  split; [discriminate|]. split; [discriminate|].
  apply (registered_ids_are_issued execute_nothing sendData_S3 world_paused
           (request NodeSignal.NODE_DELAY "n1") world_paused_inv);
    discriminate.
Defined.

Lemma chainId_determines_witness :
  let w := world_S2 broadcast_ok in
  uid (sup w) = uid (sup w) /\
  is_uuid (randomUUID w) = true /\
  broadcasts (events (broadcastNodeCreationSignal w)) = [creation_message w] /\
  Date_now w = Date_now w /\
  slice0 8 (randomUUID w) = slice0 8 (randomUUID w).
Proof.
  cbn zeta. split; [reflexivity|]. split; [reflexivity|]. split; [reflexivity|].
  apply (chainId_determines_time_and_suffix (world_S2 broadcast_ok)
           (world_S2 broadcast_ok) (creation_message (world_S2 broadcast_ok))
           (creation_message (world_S2 broadcast_ok)));
    reflexivity.
Defined.

Lemma report_witness :
  let o := installedBroadcastReporting (St:=MonitoringAgent.t) URL_on_origin
             post_ok (fun agent => agent) "/notify" None report_S2 agent_S2 in
  agent_S2 !! brm_chainId report_S2 = Some "http://monitor" /\
  URL_on_origin "/notify" (Some "http://monitor") = Normal "http://monitor/notify" /\
  posts (events o)
  = [("http://monitor/notify", json_of_BroadcastReportingMessage report_S2)] /\
  completion o = Normal tt.
Proof.
  cbn zeta. split; [reflexivity|]. split; [reflexivity|].
  destruct (report_posted_to_monitoring_host URL_on_origin post_ok
              (fun agent : MonitoringAgent.t => agent) "/notify" report_S2
              agent_S2 "http://monitor" "http://monitor/notify" eq_refl eq_refl)
    as (Hp & Hc & _).
  split; [exact Hp|exact Hc].
Defined.

Example setup_posts_S2 :
  omap (setup_request URL_on_origin "ci-1730000000000-3f2a9c1e" resolver_S2 "/setup")
       [stage_empty; stage_A; stage_B; stage_BC]
  = [("http://peer2/setup",
      JObj [("chainId", JStr "ci-1730000000000-3f2a9c1e");
            ("remoteConfigs", JObj [("services", JArr [JStr "B"])])]);
     ("http://peer2/setup",
      JObj [("chainId", JStr "ci-1730000000000-3f2a9c1e");
            ("remoteConfigs", JObj [("services", JArr [JStr "B"; JStr "C"])])])].
Proof. reflexivity. Qed.

Lemma setup_posts_witness :
  let configs := [stage_B; stage_A; stage_B] in
  let payload := mkBSCPayload (setup_message configs) resolver_fails_on_A "/setup" in
  let o := broadcastSetupCallback (St:=unit) URL_on_origin post_ok payload tt in
  processed resolver_fails_on_A configs = [stage_B] /\
  aborted resolver_fails_on_A configs = Some (Error_new "registry unreachable") /\
  posts (events o)
  = [("http://peer2/setup",
      JObj [("chainId", JStr "ci-1730000000000-3f2a9c1e");
            ("remoteConfigs", JObj [("services", JArr [JStr "B"])])])] /\
  length (events o) = 2%nat /\
  completion o = Throw (Error_new "registry unreachable").
Proof.
  cbn zeta. split; [reflexivity|]. split; [reflexivity|].
  destruct (setup_posts_follow_config URL_on_origin post_ok
              (mkBSCPayload (setup_message [stage_B; stage_A; stage_B])
                 resolver_fails_on_A "/setup") tt)
    as (Hposts & _ & _ & Hlength & Hcompletion & _).
  split; [rewrite Hposts; reflexivity|].
  split; [rewrite Hlength; reflexivity|].
  rewrite Hcompletion; reflexivity.
Defined.

(** ** Monitoring follows the nodes map *)

Lemma createNode_keeps_sync deps (w : World) :
  monitoring_in_sync w -> monitoring_in_sync (final (createNode deps w)).
Proof.
  intros Hsync m. rewrite createNode_run. cbn [final sup nodeMonitoring nodes].
  destruct (nodeMonitoring (sup w)) as [m0|] eqn:Hm; [|discriminate].
  cbn. intros [= <-]. cbn. rewrite dom_insert_L, (Hsync m0 Hm).
  apply (comm_L (∪)).
Qed.

Lemma createNodes_keep_sync (l : list ChainConfig) (w : World) :
  completion (for_of l (fun _ => createNode None ;; mret tt) w) = Normal tt /\
  (monitoring_in_sync w ->
   monitoring_in_sync (final (for_of l (fun _ => createNode None ;; mret tt) w))).
Proof.
  revert w. induction l as [|c l IH]; intros w; [now split|].
  rewrite run_for_of_cons, run_bind, run_bind.
  pose proof (createNode_keeps_sync None w) as H1.
  rewrite createNode_run in *. eff_steps.
  destruct (IH (final (createNode None w))) as [Hc Hs].
  rewrite createNode_run in Hc, Hs. cbn [final] in Hc, Hs, H1.
  rewrite Hc. eff_steps. split; [reflexivity|].
  intros Hsync. apply Hs, H1, Hsync.
Qed.

(** X15.  The supervisor tells the monitoring about every Node it adds to
    or removes from the nodes map: when the monitoring (if any) holds
    exactly the ids of the nodes map, it still does after [startChain] and
    after every request that does not run the pipeline of a Node (create,
    delete, pause, delay, unknown signals). *)
Theorem monitoring_stays_in_sync
  (Node_execute : Node.t -> PipelineData -> Eff World unit)
  (Node_sendData : Node.t -> UserEff World unit)
  (w : World) (payload : SupervisorPayload) :
  monitoring_in_sync w ->
  signal payload <> NodeSignal.NODE_RUN ->
  signal payload <> NodeSignal.NODE_SEND_DATA ->
  monitoring_in_sync (final (startChain w)) /\
  monitoring_in_sync (final (handleRequest Node_execute Node_sendData payload w)).
Proof.
  intros Hsync Hrun Hsend. split.
  - unfold startChain. rewrite run_bind. cbn [get completion final events app].
    rewrite run_bind.
    destruct (createNodes_keep_sync
                (filter (fun config => location config = local) (chainConfig (sup w)))
                w) as [Hc Hs].
    rewrite Hc. cbn [completion final events].
    destruct (decide _).
    + rewrite broadcastNodeCreationSignal_run. apply Hs, Hsync.
    + rewrite run_mret. apply Hs, Hsync.
  - unfold handleRequest.
    destruct (String.eqb_spec (signal payload) NodeSignal.NODE_CREATE) as [_|_].
    { rewrite run_bind.
      pose proof (createNode_keeps_sync (params payload) w Hsync) as H1.
      rewrite createNode_run in *. eff_steps. exact H1. }
    destruct (String.eqb_spec (signal payload) NodeSignal.NODE_DELETE) as [_|_].
    { rewrite run_bind, deleteNode_run.
      destruct (nodes (sup w) !! id payload); eff_steps; [|exact Hsync].
      intros m. cbn. destruct (nodeMonitoring (sup w)) as [m0|] eqn:Hm; [|discriminate].
      cbn. intros [= <-]. cbn. now rewrite dom_delete_L, (Hsync m0 Hm). }
    destruct (String.eqb_spec (signal payload) NodeSignal.NODE_PAUSE) as [_|_].
    { rewrite run_bind, pauseNode_run.
      destruct (nodes (sup w) !! id payload) as [node|] eqn:Hn;
        [destruct (Node.updateStatus _ _)|]; eff_steps; try exact Hsync.
      intros m. cbn. intros Hm. rewrite (Hsync m Hm).
      symmetry. apply dom_insert_lookup_L. eauto. }
    destruct (String.eqb_spec (signal payload) NodeSignal.NODE_DELAY) as [_|_].
    { rewrite run_bind, delayNode_run.
      destruct (nodes (sup w) !! id payload) as [node|] eqn:Hn;
        eff_steps; try exact Hsync.
      intros m. cbn. intros Hm. rewrite (Hsync m Hm).
      symmetry. apply dom_insert_lookup_L. eauto. }
    destruct (String.eqb_spec (signal payload) NodeSignal.NODE_RUN) as [?|_];
      [contradiction|].
    destruct (String.eqb_spec (signal payload) NodeSignal.NODE_SEND_DATA) as [?|_];
      [contradiction|].
    exact Hsync.
Qed.

Lemma world_monitored_sync : monitoring_in_sync world_monitored.
Proof. intros m [= <-]. cbn. now rewrite dom_empty_L. Defined.

Lemma monitoring_sync_witness :
  monitoring_in_sync world_monitored /\
  signal (request NodeSignal.NODE_CREATE "") <> NodeSignal.NODE_RUN /\
  signal (request NodeSignal.NODE_CREATE "") <> NodeSignal.NODE_SEND_DATA /\
  monitoring_in_sync (final (startChain world_monitored)) /\
  monitoring_in_sync
    (final (handleRequest execute_nothing sendData_S3
              (request NodeSignal.NODE_CREATE "") world_monitored)).
Proof.
  split; [exact world_monitored_sync|]. split; [discriminate|]. split; [discriminate|].
  apply (monitoring_stays_in_sync execute_nothing sendData_S3 world_monitored
           (request NodeSignal.NODE_CREATE "") world_monitored_sync); discriminate.
Defined.

Example monitoring_S2 :
  (NodeMonitoring.members <$> nodeMonitoring (sup (final (startChain world_monitored))))
  = Some (dom (nodes (sup (final (startChain world_monitored))))) /\
  size (nodes (sup (final (startChain world_monitored)))) = 1%nat.
Proof. vm_compute. auto. Qed.
